(** * transcoder_preset: the ElasticTranscoder preset reconciler

    A shallow embedding of [cloud/amazon/transcoder_preset.py]:
    the locator [get_preset_id], [delete_preset_by_id], the two
    reconcilers [create_preset] and [delete_preset], and the dispatch of
    [main].  Python dictionaries are finite maps with string keys, remote
    calls are recorded in a trace, and [module.fail_json] and uncaught
    exceptions end the run.

    The module is Python 2.  The names [os] and [botocore] it uses without
    importing them are taken to come from the star imports at the end of
    the file; argument parsing, the connection set-up and [exit_json] belong
    to the Ansible framework. *)

From stdpp Require Import gmap strings list fin_maps.

Local Open Scope string_scope.
Local Set Warnings "-register-all".

(** ** Python values *)

(** The values that flow through the module: what [json.load] returns and
    what is stored in the [params] and [result] dictionaries.  All JSON
    numbers behave alike here ([len], [in] and indexing raise on them), so
    one constructor stands for them. *)
Inductive pyval : Type :=
  | PyNone
  | PyBool (b : bool)
  | PyNum (n : Z)
  | PyStr (s : string)
  | PyList (l : list pyval)
  | PyDict (d : gmap string pyval).

Abbreviation pydict := (gmap string pyval).

(** Python truth value, as used by [if x:]. *)
Definition py_truthy (v : pyval) : bool :=
  match v with
  | PyNone => false
  | PyBool b => b
  | PyNum n => negb (Z.eqb n 0)
  | PyStr s => negb (String.eqb s "")
  | PyList l => negb (Nat.eqb (length l) 0)
  | PyDict d => negb (Nat.eqb (size d) 0)
  end.

(** The exceptions that can occur.  [ClientError] is
    [botocore.exceptions.ClientError]; [OtherError] is any other exception
    of the SDK (connection errors and the like). *)
Inductive exn : Type :=
  | ClientError (msg : string)
  | IOError (msg : string)
  | ValueError (msg : string)
  | KeyError (key : string)
  | TypeError (msg : string)
  | NameError (name : string)
  | OtherError (msg : string).

(** [key in v] for a string [key]: key membership for a dictionary,
    element membership for a list, substring test for a string; any other
    value is not iterable. *)
Definition py_contains (key : string) (v : pyval) : exn + bool :=
  match v with
  | PyDict d => inr (bool_decide (is_Some (d !! key)))
  | PyList l =>
      inr (existsb (fun x => match x with
                             | PyStr s => String.eqb s key
                             | _ => false
                             end) l)
  | PyStr s =>
      inr (match String.index 0 key s with Some _ => true | None => false end)
  | _ => inl (TypeError "argument is not iterable")
  end.

(** [v[key]] for a string [key]. *)
Definition py_getitem (v : pyval) (key : string) : exn + pyval :=
  match v with
  | PyDict d =>
      match d !! key with
      | Some x => inr x
      | None => inl (KeyError key)
      end
  | PyList _ => inl (TypeError "list indices must be integers, not str")
  | PyStr _ => inl (TypeError "string indices must be integers, not str")
  | _ => inl (TypeError "object is not subscriptable")
  end.

(** [len(v)]. *)
Definition py_len (v : pyval) : exn + nat :=
  match v with
  | PyStr s => inr (String.length s)
  | PyList l => inr (length l)
  | PyDict d => inr (size d)
  | _ => inl (TypeError "object has no len()")
  end.

(** ** Remote calls, outcomes and the run monad *)

(** The calls a run makes on the ElasticTranscoder client.  [ListPresets]
    is one page fetched by the [list_presets] paginator. *)
Inductive call : Type :=
  | ListPresets
  | CreatePreset (params : pydict)
  | DeletePreset (preset_id : pyval).

Definition is_create (c : call) : bool :=
  match c with CreatePreset _ => true | _ => false end.

Definition is_delete (c : call) : bool :=
  match c with DeletePreset _ => true | _ => false end.

Definition is_mutating (c : call) : bool := is_create c || is_delete c.

(** The mutating calls of a trace, in the order they were made. *)
Definition mutating (tr : list call) : list call := filter (fun c => is_mutating c = true) tr.

(** The delete calls and the create calls of a trace. *)
Definition deletes (tr : list call) : list call := filter (fun c => is_delete c = true) tr.

Definition creates (tr : list call) : list call := filter (fun c => is_create c = true) tr.

(** How a piece of the module ends: it returns a value, it calls
    [module.fail_json] (which exits the process with the message), or an
    exception escapes. *)
Inductive outcome (A : Type) : Type :=
  | Return (a : A)
  | FailJson (msg : string)
  | Raise (e : exn).

Arguments Return {A} a.
Arguments FailJson {A} msg.
Arguments Raise {A} e.

(** A run: the calls made so far, and how the run ended. *)
Definition run (A : Type) : Type := (list call * outcome A)%type.

#[global] Instance run_ret : MRet run := fun A a => ([], Return a).

#[global] Instance run_bind : MBind run := fun A B f m =>
  match m with
  | (tr, Return a) => let '(tr', o) := f a in ((tr ++ tr')%list, o)
  | (tr, FailJson msg) => (tr, FailJson msg)
  | (tr, Raise e) => (tr, Raise e)
  end.

Definition fail_json {A} (msg : string) : run A := ([], FailJson msg).
Definition raise {A} (e : exn) : run A := ([], Raise e).
Definition emit (c : call) : run unit := ([c], Return tt).

(** An operation of the interpreter that may raise. *)
Definition lift {A} (r : exn + A) : run A :=
  match r with
  | inl e => raise e
  | inr a => mret a
  end.

Definition trace {A} (r : run A) : list call := fst r.
Definition result_of {A} (r : run A) : outcome A := snd r.

(** ** The collaborators *)

(** An entry of the catalog as [list_presets] reports it. *)
Record preset : Type := { Name : string; Id : string; Arn : string }.

(** One page of the listing: [NextPageToken] and [Presets] may be absent. *)
Record page : Type := {
  NextPageToken : option string;
  Presets : option (list preset)
}.

(** The responses of the service during one invocation.  The paginator
    made for the given operation parameters yields pages lazily, each fetch
    either a page or an exception;
    [client.create_preset] returns the created preset or raises;
    [client.delete_preset] returns or raises. *)
Record client : Type := {
  api_list_presets : pydict -> list (exn + page);
  api_create_preset : pydict -> exn + preset;
  api_delete_preset : pyval -> option exn
}.

(** The local files: [os.path.isfile] and [json.load(open(path))], which
    raises [IOError] when the file cannot be opened or read and
    [ValueError] when its content is not JSON. *)
Record filesystem : Type := {
  isfile : string -> bool;
  json_load : string -> exn + pyval
}.

Inductive state : Type := present | absent.

(** [module.params] after argument parsing, and [module.check_mode]. *)
Record AnsibleModule : Type := {
  arg_name : option string;
  arg_description : option string;
  arg_container : option string;
  arg_state : state;
  arg_recreate : bool;
  arg_preset_document : option string;
  check_mode : bool
}.

(** [if module.params.get(k):] for a string argument: the value when it is
    present and not the empty string. *)
Definition given (o : option string) : option string :=
  match o with
  | Some s => if String.eqb s "" then None else Some s
  | None => None
  end.

(** ** get_preset_id *)

(** The inner loop [for preset in page['Presets']]: the first entry whose
    ['Name'] equals [preset_name]. *)
Fixpoint find_in_page (presets : list preset) (preset_name : string) : option preset :=
  match presets with
  | [] => None
  | preset :: rest =>
      if String.eqb (Name preset) preset_name then Some preset
      else find_in_page rest preset_name
  end.

(** The loop [for page in page_iterator].  Each iteration fetches one page.
    The assignment to [operation_parameters['PageToken']] at the end of an
    iteration changes a dictionary the paginator no longer reads, and is
    left out. *)
Fixpoint walk_pages (page_iterator : list (exn + page)) (preset_name : string)
  : run (pyval * pyval) :=
  match page_iterator with
  | [] => mret (PyNone, PyNone)
  | inl e :: _ => emit ListPresets ;; raise e
  | inr page :: rest =>
      emit ListPresets ;;
      let next_token := NextPageToken page in
      let found :=
        match Presets page with
        | Some presets => find_in_page presets preset_name
        | None => None
        end in
      match found with
      | Some preset => mret (PyStr (Id preset), PyStr (Arn preset))
      | None =>
          match next_token with
          | None => mret (PyNone, PyNone)
          | Some _ => walk_pages rest preset_name
          end
      end
  end.

(** [operation_parameters = {'Ascending': 'true'}]. *)
Definition operation_parameters : pydict := {["Ascending" := PyStr "true"]}.

Definition get_preset_id (c : client) (preset_name : string) : run (pyval * pyval) :=
  let page_iterator := api_list_presets c operation_parameters in
  walk_pages page_iterator preset_name.

(** ** delete_preset_by_id *)

(** [module] is neither a parameter of this function nor a global of the
    file, so the handler of [ClientError] raises [NameError] when it
    evaluates [module.fail_json]. *)
Definition delete_preset_by_id (c : client) (preset_name : string) (preset_id : pyval)
  : run unit :=
  emit (DeletePreset preset_id) ;;
  match api_delete_preset c preset_id with
  | None => mret tt
  | Some (ClientError _) => raise (NameError "module")
  | Some e => raise e
  end.

(** ** create_preset *)

(** [result = {'name': '', 'id': '', 'arn': '', 'msg': ''}]. *)
Definition initial_result : pydict :=
  <["name" := PyStr ""]> (<["id" := PyStr ""]> (<["arn" := PyStr ""]>
    (<["msg" := PyStr ""]> ∅))).

(** Lines 207-217: [PresetTemplate] is [{}] unless [preset_document] is
    given; then the path must be a file and its content is parsed.  Only
    [IOError] is handled. *)
Definition load_preset_document (fs : filesystem) (m : AnsibleModule) : run pyval :=
  match given (arg_preset_document m) with
  | None => mret (PyDict ∅)
  | Some spec_path =>
      (if negb (isfile fs spec_path)
       then fail_json ("Wrong path for preset_document: " ++ spec_path)
       else mret tt) ;;
      match json_load fs spec_path with
      | inr doc => mret doc
      | inl (IOError e) => fail_json ("Can't open video_template file - " ++ e)
      | inl e => raise e
      end
  end.

(** [if key in PresetTemplate: params[key] = PresetTemplate[key]]. *)
Definition copy_section (key : string) (PresetTemplate : pyval) (params : pydict)
  : run pydict :=
  b ← lift (py_contains key PresetTemplate);
  if b : bool then
    v ← lift (py_getitem PresetTemplate key);
    mret (<[key := v]> params)
  else mret params.

(** [len(params[key]) == 0]. *)
Definition len_is_zero (params : pydict) (key : string) : run bool :=
  v ← lift (py_getitem (PyDict params) key);
  n ← lift (py_len v);
  mret (Nat.eqb n 0).

(** Lines 228-230: the condition of the validation, with the short-circuit
    evaluation of [and]. *)
Definition no_specs (params : pydict) : run bool :=
  video ← len_is_zero params "Video";
  if video : bool then
    audio ← len_is_zero params "Audio";
    if audio : bool then len_is_zero params "Thumbnails" else mret false
  else mret false.

(** Lines 233-240: the create call, skipped in check mode. *)
Definition call_create (c : client) (m : AnsibleModule) (params result : pydict)
  : run pydict :=
  if negb (check_mode m) then
    emit (CreatePreset params) ;;
    match api_create_preset c params with
    | inr created =>
        mret (<["arn" := PyStr (Arn created)]> (<["id" := PyStr (Id created)]>
               (<["name" := PyStr (Name created)]> result)))
    | inl (ClientError e) => fail_json ("Invalid preset settings: " ++ e)
    | inl e => raise e
    end
  else mret result.

(** Lines 207-231: the sections of the document are copied into [params]
    and the validation is run; [params] is what the create call receives. *)
Definition build_params (fs : filesystem) (m : AnsibleModule) (params : pydict)
  : run pydict :=
  PresetTemplate ← load_preset_document fs m;
  params ← copy_section "Video" PresetTemplate params;
  params ← copy_section "Audio" PresetTemplate params;
  params ← copy_section "Thumbnails" PresetTemplate params;
  empty ← no_specs params;
  (if empty : bool
   then fail_json "No specs provided for Video, Audio, or Thumbnails. "
   else mret tt) ;;
  mret params.

Definition create_preset (c : client) (fs : filesystem) (m : AnsibleModule) : run pydict :=
  let params : pydict := ∅ in
  let result := initial_result in
  match given (arg_name m) with
  | None => fail_json "Missing required argument: name"
  | Some PresetName =>
      let params := <["Name" := PyStr PresetName]> params in
      let recreate := arg_recreate m in
      '(PresetId, PresetArn) ← get_preset_id c PresetName;
      if py_truthy PresetId && negb recreate then
        mret (<["msg" := PyStr "Preset already exists"]> (<["arn" := PresetArn]>
               (<["id" := PresetId]> (<["name" := PyStr PresetName]> result))))
      else
        (if py_truthy PresetId && recreate
         then delete_preset_by_id c PresetName PresetId
         else mret tt) ;;
        let params :=
          match given (arg_description m) with
          | Some d => <["Description" := PyStr d]> params
          | None => params
          end in
        match given (arg_container m) with
        | None => fail_json "Missing required argument: container"
        | Some container =>
            let params := <["Container" := PyStr container]> params in
            params ← build_params fs m params;
            result ← call_create c m params result;
            mret (<["changed" := PyStr "true"]>
                   (<["msg" := PyStr "Preset created successfully"]> result))
        end
  end.

(** ** delete_preset *)

Definition delete_preset (c : client) (m : AnsibleModule) : run pydict :=
  let result := initial_result in
  match given (arg_name m) with
  | None => fail_json "Missing required argument: name"
  | Some PresetName =>
      '(PresetId, PresetArn) ← get_preset_id c PresetName;
      let result := <["changed" := PyStr "true"]>
                      (<["msg" := PyStr "Preset deleted successfully"]> result) in
      result ←
        (if py_truthy PresetId then
           let result := <["arn" := PresetArn]> (<["id" := PresetId]> result) in
           if negb (check_mode m) then
             emit (DeletePreset PresetId) ;;
             match api_delete_preset c PresetId with
             | None => mret result
             | Some (ClientError e) =>
                 fail_json ("Failed to delete preset " ++ PresetName ++ ": " ++ e)
             | Some e => raise e
             end
           else mret result
         else
           if negb (check_mode m) then
             mret (<["changed" := PyStr "false"]>
                    (<["msg" := PyStr "Preset not found"]> result))
           else mret result);
      mret (<["name" := PyStr PresetName]> result)
  end.

(** ** main *)

(** Modelled from the spec: [AnsibleModule.exit_json] belongs to the host
    framework and is not part of this repository.  The result surface has
    a [changed] entry for every successful run; a result in which the
    reconciler set none is reported with [changed] false. *)
Definition exit_json (kwargs : pydict) : pydict :=
  match kwargs !! "changed" with
  | Some _ => kwargs
  | None => <["changed" := PyBool false]> kwargs
  end.

(** The dispatch on [state] and the exit.  The client is the one
    [boto3_conn] returned. *)
Definition main (c : client) (fs : filesystem) (m : AnsibleModule) : run pydict :=
  results ← match arg_state m with
            | present => create_preset c fs m
            | absent => delete_preset c m
            end;
  mret (exit_json results).

(** ** Catalogs *)

(** The entries of a page: none when ['Presets'] is absent. *)
Definition entries (pg : page) : list preset := default [] (Presets pg).

(** The entries of all pages, in page order. *)
Definition all_entries (pages : list page) : list preset := concat (map entries pages).

(** A paginated catalog: every page that is followed by another one
    carries a continuation token. *)
Fixpoint well_paginated (pages : list page) : bool :=
  match pages with
  | [] => true
  | pg :: rest =>
      match rest with
      | [] => true
      | _ :: _ => bool_decide (is_Some (NextPageToken pg)) && well_paginated rest
      end
  end.

(** [m] with its [recreate] argument replaced. *)
Definition with_recreate (b : bool) (m : AnsibleModule) : AnsibleModule :=
  {| arg_name := arg_name m;
     arg_description := arg_description m;
     arg_container := arg_container m;
     arg_state := arg_state m;
     arg_recreate := b;
     arg_preset_document := arg_preset_document m;
     check_mode := check_mode m |}.

(** ** The result dictionaries *)

(** The result of the early return of [create_preset]. *)
Definition already_exists_result (n : string) (id arn : pyval) : pydict :=
  <["msg" := PyStr "Preset already exists"]> (<["arn" := arn]>
    (<["id" := id]> (<["name" := PyStr n]> initial_result))).

(** The result of [create_preset] after a create call that returned
    [created]. *)
Definition created_result (created : preset) : pydict :=
  <["changed" := PyStr "true"]> (<["msg" := PyStr "Preset created successfully"]>
    (<["arn" := PyStr (Arn created)]> (<["id" := PyStr (Id created)]>
      (<["name" := PyStr (Name created)]> initial_result)))).

(** The result of [delete_preset] when nothing is found outside check
    mode. *)
Definition not_found_result (n : string) : pydict :=
  <["name" := PyStr n]> (<["changed" := PyStr "false"]>
    (<["msg" := PyStr "Preset not found"]> (<["changed" := PyStr "true"]>
      (<["msg" := PyStr "Preset deleted successfully"]> initial_result)))).

(** The result of [delete_preset] in check mode, whatever the lookup
    returned. *)
Definition check_mode_delete_result (n : string) (id arn : pyval) : pydict :=
  let result := <["changed" := PyStr "true"]>
                  (<["msg" := PyStr "Preset deleted successfully"]> initial_result) in
  <["name" := PyStr n]>
    (if py_truthy id then <["arn" := arn]> (<["id" := id]> result) else result).

(** ** Sample invocations *)

(** The preset of the module's examples, with the id and arn of its
    RETURN samples. *)
Definition sd_300 : preset :=
  {| Name := "test_300_sd_video";
     Id := "1466672939342-kdjcje";
     Arn := "arn:aws:elastictranscoder:us-east-1:123456789012:preset/1466672939342-kdjcje" |}.

Definition other_preset : preset :=
  {| Name := "test_600_sd";
     Id := "1466672939111-abcdef";
     Arn := "arn:aws:elastictranscoder:us-east-1:123456789012:preset/1466672939111-abcdef" |}.

(** What the service answers to a create call in the samples. *)
Definition created_preset : preset :=
  {| Name := "test_300_sd_video";
     Id := "1466672955555-zyxwvu";
     Arn := "arn:aws:elastictranscoder:us-east-1:123456789012:preset/1466672955555-zyxwvu" |}.

(** A service whose listing yields [pages] and whose create and delete
    calls succeed. *)
Definition service (pages : list page) : client :=
  {| api_list_presets := fun _ => map inr pages;
     api_create_preset := fun _ => inr created_preset;
     api_delete_preset := fun _ => None |}.

Definition last_page (presets : list preset) : page :=
  {| NextPageToken := None; Presets := Some presets |}.

Definition more_page (token : string) (presets : list preset) : page :=
  {| NextPageToken := Some token; Presets := Some presets |}.

(** Files holding JSON documents; any other path is not a file. *)
Definition files (docs : gmap string pyval) : filesystem :=
  {| isfile := fun path => bool_decide (is_Some (docs !! path));
     json_load := fun path =>
       match docs !! path with
       | Some doc => inr doc
       | None => inl (IOError ("[Errno 2] No such file or directory: '" ++ path ++ "'"))
       end |}.

Definition no_files : filesystem := files ∅.

Definition video_section : pyval :=
  PyDict (<["Codec" := PyStr "H.264"]> (<["BitRate" := PyStr "300"]> ∅)).

Definition audio_section : pyval :=
  PyDict (<["Codec" := PyStr "AAC"]> (<["SampleRate" := PyStr "44100"]> ∅)).

(** A document with a Video section and empty Audio and Thumbnails. *)
Definition video_document : pyval :=
  PyDict (<["Video" := video_section]> (<["Audio" := PyDict ∅]>
    (<["Thumbnails" := PyDict ∅]> ∅))).

(** A document with an Audio section only. *)
Definition audio_only_document : pyval :=
  PyDict (<["Audio" := audio_section]> ∅).

(** A document whose three sections are present and empty. *)
Definition empty_sections_document : pyval :=
  PyDict (<["Video" := PyDict ∅]> (<["Audio" := PyDict ∅]>
    (<["Thumbnails" := PyDict ∅]> ∅))).

Definition preset_files : filesystem :=
  files (<["video.json" := video_document]> (<["audio.json" := audio_only_document]>
    (<["empty.json" := empty_sections_document]> ∅))).

Definition invoke_present (name container document : option string)
    (recreate check : bool) : AnsibleModule :=
  {| arg_name := name;
     arg_description := Some "Preset test";
     arg_container := container;
     arg_state := present;
     arg_recreate := recreate;
     arg_preset_document := document;
     check_mode := check |}.

Definition invoke_absent (name : option string) (check : bool) : AnsibleModule :=
  {| arg_name := name;
     arg_description := None;
     arg_container := None;
     arg_state := absent;
     arg_recreate := false;
     arg_preset_document := None;
     check_mode := check |}.

(** A catalog of two pages in which two presets share a name. *)
Definition sd_300_duplicate : preset :=
  {| Name := "test_300_sd_video";
     Id := "1466672999999-dupdup";
     Arn := "arn:aws:elastictranscoder:us-east-1:123456789012:preset/1466672999999-dupdup" |}.

Definition two_pages : list page :=
  [more_page "page-2" [other_preset]; last_page [sd_300; sd_300_duplicate]].

(** Files that exist and cannot be read. *)
Definition unreadable_files : filesystem :=
  {| isfile := fun _ => true;
     json_load := fun _ => inl (IOError "[Errno 13] Permission denied") |}.

(** ** What create_preset sends and when the validation lets it through *)

(** [params] when the container check is passed (lines 167-205): the name,
    the description if one is given, and the container. *)
Definition base_params (m : AnsibleModule) (n container : string) : pydict :=
  <["Container" := PyStr container]>
    (match given (arg_description m) with
     | Some d => <["Description" := PyStr d]> (<["Name" := PyStr n]> ∅)
     | None => <["Name" := PyStr n]> ∅
     end).

(** [params] with the section [key] of the document [d], if it has one. *)
Definition with_section (key : string) (d params : pydict) : pydict :=
  match d !! key with
  | Some v => <[key := v]> params
  | None => params
  end.

(** [params] after lines 219-226 for a document that is a dictionary. *)
Definition with_sections (d params : pydict) : pydict :=
  with_section "Thumbnails" d (with_section "Audio" d (with_section "Video" d params)).

(** A section that is present and has a length other than 0. *)
Definition section_nonempty (d : pydict) (key : string) : bool :=
  match d !! key with
  | Some v => match py_len v with inr (S _) => true | _ => false end
  | None => false
  end.

(** A section that is present and has length 0. *)
Definition section_empty (d : pydict) (key : string) : bool :=
  match d !! key with
  | Some v => match py_len v with inr 0 => true | _ => false end
  | None => false
  end.

(** The documents the condition of lines 228-230 lets through: the first
    section, in the order Video, Audio, Thumbnails, that is not an empty one
    has a length other than 0. *)
Definition specs_accepted (d : pydict) : bool :=
  section_nonempty d "Video" ||
  section_empty d "Video" &&
    (section_nonempty d "Audio" ||
     section_empty d "Audio" && section_nonempty d "Thumbnails").

(** The condition of lines 228-230 as a function of [params]: what
    [len(params['Video']) == 0 and len(params['Audio']) == 0 and
    len(params['Thumbnails']) == 0] evaluates to, or the exception it
    raises. *)
Definition specs_check (params : pydict) : outcome bool :=
  match params !! "Video" with
  | None => Raise (KeyError "Video")
  | Some video =>
      match py_len video with
      | inl e => Raise e
      | inr (S _) => Return false
      | inr 0 =>
          match params !! "Audio" with
          | None => Raise (KeyError "Audio")
          | Some audio =>
              match py_len audio with
              | inl e => Raise e
              | inr (S _) => Return false
              | inr 0 =>
                  match params !! "Thumbnails" with
                  | None => Raise (KeyError "Thumbnails")
                  | Some thumbnails =>
                      match py_len thumbnails with
                      | inl e => Raise e
                      | inr n => Return (Nat.eqb n 0)
                      end
                  end
              end
          end
      end
  end.

(** Lines 199-245 of [create_preset], what follows the lookup and the
    delete of recreate mode: the description, the container check, the
    document and the validation, the create call and the result. *)
Definition create_path (c : client) (fs : filesystem) (m : AnsibleModule) (n : string)
  : run pydict :=
  match given (arg_container m) with
  | None => fail_json "Missing required argument: container"
  | Some container =>
      params ← build_params fs m (base_params m n container);
      result ← call_create c m params initial_result;
      mret (<["changed" := PyStr "true"]>
             (<["msg" := PyStr "Preset created successfully"]> result))
  end.

(** ** The catalog after a run *)



(** ** More sample data *)

(** A service with the given listing stream and the given answers to the
    create and delete calls. *)
Definition service_with (stream : list (exn + page)) (created : exn + preset)
    (deleted : option exn) : client :=
  {| api_list_presets := fun _ => stream;
     api_create_preset := fun _ => created;
     api_delete_preset := fun _ => deleted |}.

(** A listing whose second fetch is refused. *)
Definition throttled_stream : list (exn + page) :=
  [inr (more_page "page-2" [other_preset]);
   inl (ClientError "ThrottlingException");
   inr (last_page [sd_300])].

(** A document whose Video section is empty and whose Audio section is
    not; it has no Thumbnails section. *)
Definition audio_after_empty_video_document : pyval :=
  PyDict (<["Video" := PyDict ∅]> (<["Audio" := audio_section]> ∅)).

(** A document whose Video section is null. *)
Definition null_video_document : pyval :=
  PyDict (<["Video" := PyNone]> ∅).

(** A document that is a list of section names. *)
Definition list_document : pyval := PyList [PyStr "Video"; PyStr "Audio"].

Definition more_preset_files : filesystem :=
  files (<["video.json" := video_document]>
    (<["audio_after_video.json" := audio_after_empty_video_document]>
    (<["null_video.json" := null_video_document]>
    (<["list.json" := list_document]>
    (<["empty_video.json" := PyDict (<["Video" := PyDict ∅]> ∅)]> ∅))))).





(** * Properties *)

(** ** The run monad *)

Section RunMonad.
Context {A B : Type}.
Implicit Types (m : run A) (f : A -> run B).

Lemma trace_bind m f :
  trace (m ≫= f) =
  (trace m ++ match result_of m with
              | Return a => trace (f a)
              | _ => []
              end)%list.
Proof.
  destruct m as [tr [a | msg | e]]; cbn; try (by rewrite app_nil_r).
  by destruct (f a).
Qed.

Lemma result_bind m f :
  result_of (m ≫= f) =
  match result_of m with
  | Return a => result_of (f a)
  | FailJson msg => FailJson msg
  | Raise e => Raise e
  end.
Proof.
  destruct m as [tr [a | msg | e]]; cbn; try done.
  by destruct (f a).
Qed.

Lemma trace_lift (r : exn + A) : trace (lift r) = [].
Proof. by destruct r. Qed.

Lemma bind_ret_l (a : A) f : ([], Return a) ≫= f = f a.
Proof. cbn. by destruct (f a). Qed.

Lemma bind_mret_l (a : A) f : mret a ≫= f = f a.
Proof. apply bind_ret_l. Qed.

Lemma bind_ext m f (g : A -> run B) a :
  result_of m = Return a -> f a = g a -> m ≫= f = m ≫= g.
Proof. destruct m as [tr o]. cbn. intros -> Hfg. by rewrite Hfg. Qed.
End RunMonad.

Lemma run_eta {A} (r : run A) : r = (trace r, result_of r).
Proof. by destruct r. Qed.

Lemma mutating_app (t1 t2 : list call) :
  mutating (t1 ++ t2) = (mutating t1 ++ mutating t2)%list.
Proof. apply filter_app. Qed.

(** ** The locator only reads *)

Lemma walk_pages_reads it preset_name :
  trace (walk_pages it preset_name) = repeat ListPresets (length (trace (walk_pages it preset_name))).
Proof.
  induction it as [| [e | pg] rest IH]; cbn; try done.
  destruct (match Presets pg with Some _ => _ | None => _ end); cbn; try done.
  destruct (NextPageToken pg); cbn; try done.
  rewrite (run_eta (walk_pages rest preset_name)) in *. cbn in *.
  destruct (result_of (walk_pages rest preset_name)); cbn; by rewrite <- IH.
Qed.

Lemma mutating_repeat_reads n : mutating (repeat ListPresets n) = [].
Proof. induction n; cbn; done. Qed.

Lemma get_preset_id_not_mutating c preset_name :
  mutating (trace (get_preset_id c preset_name)) = [].
Proof.
  unfold get_preset_id. rewrite walk_pages_reads. apply mutating_repeat_reads.
Qed.

(** ** The locator returns the first match *)

Lemma find_in_page_app l1 l2 preset_name :
  find_in_page (l1 ++ l2) preset_name =
  match find_in_page l1 preset_name with
  | Some p => Some p
  | None => find_in_page l2 preset_name
  end.
Proof.
  induction l1 as [| q l1 IH]; cbn; [done |].
  by destruct (String.eqb (Name q) preset_name).
Qed.

Lemma find_in_page_None l preset_name :
  find_in_page l preset_name = None ↔ Forall (fun q => Name q ≠ preset_name) l.
Proof.
  induction l as [| q l IH]; cbn.
  - split; [constructor | done].
  - destruct (String.eqb_spec (Name q) preset_name) as [Heq | Hne].
    + split; [done |]. intros H. by inversion H.
    + rewrite IH. split; [by constructor |]. intros H. by inversion H.
Qed.

Lemma find_in_page_first l1 p l2 preset_name :
  Name p = preset_name ->
  Forall (fun q => Name q ≠ preset_name) l1 ->
  find_in_page (l1 ++ p :: l2) preset_name = Some p.
Proof.
  intros Hp Hl1. rewrite find_in_page_app.
  apply find_in_page_None in Hl1. rewrite Hl1. cbn.
  by rewrite (proj2 (String.eqb_eq _ _) Hp).
Qed.

Lemma find_in_page_Exists l preset_name :
  Exists (fun q => Name q = preset_name) l ->
  exists p, find_in_page l preset_name = Some p.
Proof.
  intros H. destruct (find_in_page l preset_name) as [p |] eqn:E; [by exists p |].
  apply find_in_page_None in E. apply Exists_exists in H as (q & Hq & Hn).
  rewrite Forall_forall in E. by destruct (E q Hq).
Qed.

Lemma page_lookup pg preset_name :
  match Presets pg with
  | Some presets => find_in_page presets preset_name
  | None => None
  end = find_in_page (entries pg) preset_name.
Proof. unfold entries. by destruct (Presets pg). Qed.

Lemma walk_pages_cons pg rest preset_name :
  walk_pages (inr pg :: rest) preset_name =
  (emit ListPresets ;;
   match find_in_page (entries pg) preset_name with
   | Some preset => mret (PyStr (Id preset), PyStr (Arn preset))
   | None =>
       match NextPageToken pg with
       | None => mret (PyNone, PyNone)
       | Some _ => walk_pages rest preset_name
       end
   end).
Proof. cbn [walk_pages]. by rewrite page_lookup. Qed.

Lemma well_paginated_cons pg pg' rest :
  well_paginated (pg :: pg' :: rest) = true ->
  is_Some (NextPageToken pg) ∧ well_paginated (pg' :: rest) = true.
Proof.
  cbn [well_paginated]. intros H. apply andb_true_iff in H as [H1 H2].
  split; [by apply bool_decide_eq_true in H1 | done].
Qed.

Lemma walk_pages_result pages preset_name :
  well_paginated pages = true ->
  result_of (walk_pages (map inr pages) preset_name) =
  Return match find_in_page (all_entries pages) preset_name with
         | Some p => (PyStr (Id p), PyStr (Arn p))
         | None => (PyNone, PyNone)
         end.
Proof.
  induction pages as [| pg rest IH]; intros Hwp; [done |].
  cbn [map]. rewrite walk_pages_cons, result_bind. cbn [emit result_of snd].
  unfold all_entries. cbn [map concat]. rewrite find_in_page_app.
  destruct (find_in_page (entries pg) preset_name) as [p |]; [done |].
  destruct rest as [| pg' rest].
  - cbn. by destruct (NextPageToken pg).
  - apply well_paginated_cons in Hwp as [[tok Htok] Hwp].
    rewrite Htok. by apply IH.
Qed.

Lemma walk_pages_no_match pages preset_name :
  Forall (fun q => Name q ≠ preset_name) (all_entries pages) ->
  result_of (walk_pages (map inr pages) preset_name) = Return (PyNone, PyNone).
Proof.
  induction pages as [| pg rest IH]; intros Hno; [done |].
  unfold all_entries in Hno. cbn [map concat] in Hno.
  apply Forall_app in Hno as [Hpg Hrest].
  cbn [map]. rewrite walk_pages_cons, result_bind. cbn [emit result_of snd].
  apply find_in_page_None in Hpg. rewrite Hpg.
  destruct (NextPageToken pg); [by apply IH | done].
Qed.

Lemma walk_pages_stops before pg after preset_name :
  well_paginated (before ++ pg :: after) = true ->
  Forall (fun q => Name q ≠ preset_name) (all_entries before) ->
  Exists (fun q => Name q = preset_name) (entries pg) ->
  trace (walk_pages (map inr (before ++ pg :: after)) preset_name) =
  repeat ListPresets (S (length before)).
Proof.
  induction before as [| pg0 before IH]; intros Hwp Hno Hex.
  - cbn [app map]. rewrite walk_pages_cons, trace_bind. cbn [emit trace result_of fst snd].
    apply find_in_page_Exists in Hex as [p Hp]. by rewrite Hp.
  - unfold all_entries in Hno. cbn [map concat] in Hno.
    apply Forall_app in Hno as [Hpg0 Hno].
    cbn [app map]. rewrite walk_pages_cons, trace_bind. cbn [emit trace result_of fst snd].
    apply find_in_page_None in Hpg0. rewrite Hpg0.
    assert (is_Some (NextPageToken pg0) ∧ well_paginated (before ++ pg :: after) = true)
      as [[tok Htok] Hwp'].
    { destruct before; apply (well_paginated_cons _ _ _ Hwp). }
    rewrite Htok, IH by done. done.
Qed.

Lemma walk_pages_all pages preset_name :
  well_paginated pages = true ->
  Forall (fun q => Name q ≠ preset_name) (all_entries pages) ->
  trace (walk_pages (map inr pages) preset_name) = repeat ListPresets (length pages).
Proof.
  induction pages as [| pg rest IH]; intros Hwp Hno; [done |].
  unfold all_entries in Hno. cbn [map concat] in Hno.
  apply Forall_app in Hno as [Hpg Hno].
  cbn [map]. rewrite walk_pages_cons, trace_bind. cbn [emit trace result_of fst snd].
  apply find_in_page_None in Hpg. rewrite Hpg.
  destruct rest as [| pg' rest].
  - cbn. by destruct (NextPageToken pg).
  - apply well_paginated_cons in Hwp as [[tok Htok] Hwp].
    rewrite Htok, IH by done. done.
Qed.

(** ** Which steps call the service *)

Ltac pure_trace :=
  repeat first
    [ rewrite trace_bind
    | rewrite trace_lift
    | match goal with
      | |- context [match ?x with _ => _ end] => destruct x
      end ];
  done.

Lemma load_preset_document_trace fs m : trace (load_preset_document fs m) = [].
Proof. unfold load_preset_document. pure_trace. Qed.

Lemma copy_section_trace key tpl params : trace (copy_section key tpl params) = [].
Proof. unfold copy_section. pure_trace. Qed.

Lemma len_is_zero_trace params key : trace (len_is_zero params key) = [].
Proof. unfold len_is_zero. pure_trace. Qed.

Lemma no_specs_trace params : trace (no_specs params) = [].
Proof.
  unfold no_specs. rewrite trace_bind, len_is_zero_trace.
  destruct (result_of (len_is_zero params "Video")) as [[] | |]; try done.
  rewrite trace_bind, len_is_zero_trace.
  destruct (result_of (len_is_zero params "Audio")) as [[] | |]; try done.
  apply len_is_zero_trace.
Qed.

Lemma build_params_trace fs m params : trace (build_params fs m params) = [].
Proof.
  unfold build_params.
  rewrite trace_bind, load_preset_document_trace.
  destruct (result_of (load_preset_document fs m)); [| done..].
  repeat (rewrite trace_bind, copy_section_trace;
          destruct (result_of (copy_section _ _ _)); [| done..]).
  rewrite trace_bind, no_specs_trace.
  destruct (result_of (no_specs _)) as [[] | |]; done.
Qed.

Lemma call_create_trace c m params result :
  trace (call_create c m params result) =
  if check_mode m then [] else [CreatePreset params].
Proof.
  unfold call_create. destruct (check_mode m); [done |].
  cbn [negb]. rewrite trace_bind. cbn.
  by destruct (api_create_preset c params) as [[] |].
Qed.

Lemma delete_preset_by_id_trace c preset_name preset_id :
  trace (delete_preset_by_id c preset_name preset_id) = [DeletePreset preset_id].
Proof.
  unfold delete_preset_by_id. rewrite trace_bind. cbn.
  by destruct (api_delete_preset c preset_id) as [[] |].
Qed.

Lemma delete_preset_by_id_returns c preset_name preset_id u :
  result_of (delete_preset_by_id c preset_name preset_id) = Return u ->
  api_delete_preset c preset_id = None.
Proof.
  unfold delete_preset_by_id. rewrite result_bind. cbn.
  by destruct (api_delete_preset c preset_id) as [[] |].
Qed.

(** ** The calls of create_preset *)

Lemma create_preset_no_name c fs m :
  given (arg_name m) = None ->
  create_preset c fs m = ([], FailJson "Missing required argument: name").
Proof. unfold create_preset. by intros ->. Qed.

Lemma create_preset_lookup_fails c fs m n :
  given (arg_name m) = Some n ->
  (forall r, result_of (get_preset_id c n) ≠ Return r) ->
  trace (create_preset c fs m) = trace (get_preset_id c n).
Proof.
  intros Hn Hfail. unfold create_preset. rewrite Hn, trace_bind.
  destruct (result_of (get_preset_id c n)) as [r | |]; try by rewrite app_nil_r.
  by destruct (Hfail r).
Qed.

Ltac no_more_calls :=
  exists []; cbn; split_and!; [done | by left | done].

(** Lines 199-245, from the description on. *)
Ltac create_path Hcm :=
  destruct (given (arg_container _)) as [? |]; [| no_more_calls];
  rewrite trace_bind, result_bind;
  match goal with
  | |- context [result_of (build_params ?fs ?m ?params0)] =>
      rewrite (build_params_trace fs m params0);
      destruct (result_of (build_params fs m params0)) as [? | ? | ?] eqn:?
  end;
  try no_more_calls;
  rewrite trace_bind, result_bind, call_create_trace;
  destruct (check_mode _) eqn:Hcm;
  [ exists []; cbn; split_and!; [| by left | done]
  | match goal with
    | H : result_of (build_params _ _ _) = Return ?p |- _ =>
        exists [CreatePreset p]; split_and!;
        [| right; exists p; split_and!; by eauto | done]
    end ];
  by destruct (result_of (call_create _ _ _ _)).

(** After the lookup the run makes the delete of recreate mode, if one is
    due, and then at most one create call; a create call is made only
    outside check mode, with a container, after a successful delete and
    with the parameters the validation let through. *)
Lemma create_preset_trace c fs m n id arn :
  given (arg_name m) = Some n ->
  result_of (get_preset_id c n) = Return (id, arn) ->
  exists cs,
    trace (create_preset c fs m) =
      (trace (get_preset_id c n) ++
       (if py_truthy id && arg_recreate m then [DeletePreset id] else []) ++ cs)%list
    ∧ (cs = [] ∨
       exists p, cs = [CreatePreset p] ∧
         check_mode m = false ∧ is_Some (given (arg_container m)) ∧
         (py_truthy id && arg_recreate m = true -> api_delete_preset c id = None) ∧
         exists params0, result_of (build_params fs m params0) = Return p)
    ∧ (forall r, result_of (create_preset c fs m) = Return r ->
       check_mode m = false -> py_truthy id && negb (arg_recreate m) = false ->
       cs ≠ []).
Proof.
  intros Hn Hlk. unfold create_preset. rewrite Hn.
  rewrite trace_bind, result_bind, Hlk.
  destruct (py_truthy id) eqn:Hid, (arg_recreate m) eqn:Hre; cbn [andb negb].
  - (* found, recreate: the delete comes first *)
    rewrite trace_bind, result_bind, delete_preset_by_id_trace.
    destruct (result_of (delete_preset_by_id c n id)) as [u | msg | e] eqn:Hdel;
      try no_more_calls.
    apply delete_preset_by_id_returns in Hdel.
    create_path Hcm.
  - (* found, no recreate: the early return *)
    no_more_calls.
  - (* not found, recreate *)
    rewrite trace_bind, result_bind. cbn [mret run_ret trace result_of fst snd app].
    create_path Hcm.
  - (* not found, no recreate *)
    rewrite trace_bind, result_bind. cbn [mret run_ret trace result_of fst snd app].
    create_path Hcm.
Qed.

(** ** The calls of delete_preset *)

Lemma delete_preset_no_name c m :
  given (arg_name m) = None ->
  delete_preset c m = ([], FailJson "Missing required argument: name").
Proof. unfold delete_preset. by intros ->. Qed.

Lemma delete_preset_lookup_fails c m n :
  given (arg_name m) = Some n ->
  (forall r, result_of (get_preset_id c n) ≠ Return r) ->
  trace (delete_preset c m) = trace (get_preset_id c n).
Proof.
  intros Hn Hfail. unfold delete_preset. rewrite Hn, trace_bind.
  destruct (result_of (get_preset_id c n)) as [r | |]; try by rewrite app_nil_r.
  by destruct (Hfail r).
Qed.

Lemma delete_preset_trace c m n id arn :
  given (arg_name m) = Some n ->
  result_of (get_preset_id c n) = Return (id, arn) ->
  trace (delete_preset c m) =
    (trace (get_preset_id c n) ++
     if py_truthy id && negb (check_mode m) then [DeletePreset id] else [])%list.
Proof.
  intros Hn Hlk. unfold delete_preset. rewrite Hn, trace_bind, Hlk.
  f_equal. rewrite trace_bind.
  destruct (py_truthy id), (check_mode m); cbn [andb negb]; try done.
  rewrite trace_bind, result_bind. cbn.
  by destruct (api_delete_preset c id) as [[] |].
Qed.


Lemma delete_preset_check_mode_result c m n id arn :
  given (arg_name m) = Some n ->
  result_of (get_preset_id c n) = Return (id, arn) ->
  check_mode m = true ->
  result_of (delete_preset c m) = Return (check_mode_delete_result n id arn).
Proof.
  intros Hn Hlk Hcm. unfold delete_preset, check_mode_delete_result.
  rewrite Hn, result_bind, Hlk, Hcm. by destruct (py_truthy id).
Qed.

(** ** main *)

Lemma main_trace c fs m :
  trace (main c fs m) =
  match arg_state m with
  | present => trace (create_preset c fs m)
  | absent => trace (delete_preset c m)
  end.
Proof.
  unfold main. rewrite trace_bind.
  destruct (arg_state m);
    match goal with |- context [result_of ?r] => destruct (result_of r) end;
    by rewrite app_nil_r.
Qed.

Lemma main_result c fs m :
  result_of (main c fs m) =
  match match arg_state m with
        | present => result_of (create_preset c fs m)
        | absent => result_of (delete_preset c m)
        end with
  | Return results => Return (exit_json results)
  | FailJson msg => FailJson msg
  | Raise e => Raise e
  end.
Proof. unfold main. rewrite result_bind. by destruct (arg_state m). Qed.

(** * The claims *)

Lemma string_eqb_nonempty (s : string) : s ≠ "" -> String.eqb s "" = false.
Proof. intros H. by apply String.eqb_neq. Qed.

(** C1: a state=present invocation in which the locator finds a preset of
    the given name (its id a non-empty string, as every id the service
    assigns) and recreate is false makes no mutating call and returns
    success: the result carries the name, the id and the arn of the existing
    preset and the message "Preset already exists"; create_preset sets no
    changed entry, and the invocation reports changed = False. *)
Theorem present_existing_preset_unchanged c fs m n id arn :
  arg_state m = present ->
  given (arg_name m) = Some n ->
  arg_recreate m = false ->
  result_of (get_preset_id c n) = Return (PyStr id, PyStr arn) ->
  id ≠ "" ->
  mutating (trace (main c fs m)) = [] ∧
  (exists r0, result_of (create_preset c fs m) = Return r0 ∧ r0 !! "changed" = None) ∧
  exists r, result_of (main c fs m) = Return r ∧
    r !! "name" = Some (PyStr n) ∧
    r !! "id" = Some (PyStr id) ∧
    r !! "arn" = Some (PyStr arn) ∧
    r !! "msg" = Some (PyStr "Preset already exists") ∧
    r !! "changed" = Some (PyBool false).
Proof.
  intros Hst Hn Hre Hlk Hid.
  assert (result_of (create_preset c fs m) =
          Return (already_exists_result n (PyStr id) (PyStr arn))) as Hres.
  { unfold create_preset. rewrite Hn, result_bind, Hlk, Hre. cbn [py_truthy].
    by rewrite (string_eqb_nonempty _ Hid). }
  split_and!.
  - rewrite main_trace, Hst. unfold create_preset.
    rewrite Hn, trace_bind, Hlk, Hre. cbn [py_truthy].
    rewrite (string_eqb_nonempty _ Hid). cbn. rewrite app_nil_r.
    apply get_preset_id_not_mutating.
  - eexists. split; [exact Hres | done].
  - rewrite main_result, Hst, Hres. eexists. split; [done |]. done.
Qed.

Lemma get_preset_id_no_match c n pages :
  api_list_presets c operation_parameters = map inr pages ->
  Forall (fun q => Name q ≠ n) (all_entries pages) ->
  result_of (get_preset_id c n) = Return (PyNone, PyNone).
Proof. unfold get_preset_id. intros ->. apply walk_pages_no_match. Qed.

Lemma deletes_mutating tr : mutating tr = [] -> deletes tr = [].
Proof.
  unfold mutating, deletes. induction tr as [| [| p | i] tr IH]; cbn; try done.
Qed.

Lemma creates_mutating tr : mutating tr = [] -> creates tr = [].
Proof.
  unfold mutating, creates. induction tr as [| [| p | i] tr IH]; cbn; try done.
Qed.

Lemma deletes_app t1 t2 : deletes (t1 ++ t2) = (deletes t1 ++ deletes t2)%list.
Proof. apply filter_app. Qed.

Lemma creates_app t1 t2 : creates (t1 ++ t2) = (creates t1 ++ creates t2)%list.
Proof. apply filter_app. Qed.

(** C5: on every paginated catalog the locator fetches the pages in the
    order the service reports them and compares names for equality of
    strings (case matters).  It returns the id and arn of the first entry
    of that name and fetches no page after the one holding it; when no
    entry has the name it fetches every page and returns (None, None)
    without raising.  It only reads: its trace holds no mutating call. *)
Theorem get_preset_id_first_match c preset_name pages :
  api_list_presets c operation_parameters = map inr pages ->
  well_paginated pages = true ->
  mutating (trace (get_preset_id c preset_name)) = [] ∧
  (forall l1 p l2,
     all_entries pages = (l1 ++ p :: l2)%list ->
     Name p = preset_name ->
     Forall (fun q => Name q ≠ preset_name) l1 ->
     result_of (get_preset_id c preset_name) = Return (PyStr (Id p), PyStr (Arn p))) ∧
  (forall before pg after,
     pages = (before ++ pg :: after)%list ->
     Forall (fun q => Name q ≠ preset_name) (all_entries before) ->
     Exists (fun q => Name q = preset_name) (entries pg) ->
     trace (get_preset_id c preset_name) = repeat ListPresets (S (length before))) ∧
  (Forall (fun q => Name q ≠ preset_name) (all_entries pages) ->
   get_preset_id c preset_name =
     (repeat ListPresets (length pages), Return (PyNone, PyNone))).
Proof.
  intros Hc Hwp. split_and!.
  - apply get_preset_id_not_mutating.
  - intros l1 p l2 Hall Hp Hl1. unfold get_preset_id.
    rewrite Hc, walk_pages_result, Hall by done.
    by rewrite find_in_page_first.
  - intros before pg after -> Hno Hex. unfold get_preset_id. rewrite Hc.
    by apply walk_pages_stops.
  - intros Hno. unfold get_preset_id. rewrite Hc.
    rewrite (run_eta (walk_pages _ _)).
    by rewrite walk_pages_all, walk_pages_no_match.
Qed.

(** ** At most one delete per absent run *)

Lemma delete_preset_calls c m :
  mutating (trace (delete_preset c m)) = [] ∨
  exists id, mutating (trace (delete_preset c m)) = [DeletePreset id] ∧ check_mode m = false.
Proof.
  destruct (given (arg_name m)) as [n |] eqn:Hn.
  - destruct (result_of (get_preset_id c n)) as [[id arn] | msg | e] eqn:Hlk.
    + rewrite (delete_preset_trace c m n id arn Hn Hlk), mutating_app.
      rewrite get_preset_id_not_mutating.
      destruct (py_truthy id), (check_mode m); cbn; eauto.
    + left. rewrite (delete_preset_lookup_fails c m n Hn).
      * apply get_preset_id_not_mutating.
      * intros r. by rewrite Hlk.
    + left. rewrite (delete_preset_lookup_fails c m n Hn).
      * apply get_preset_id_not_mutating.
      * intros r. by rewrite Hlk.
  - left. by rewrite delete_preset_no_name.
Qed.

Lemma deletes_of_mutating tr : deletes (mutating tr) = deletes tr.
Proof.
  unfold deletes, mutating. apply list_filter_filter_l.
  intros x Hx. unfold is_mutating. by rewrite Hx, orb_true_r.
Qed.

(** C8, as the code has it: a state=absent invocation in check mode makes
    no delete call (no mutating call at all), and once the lookup has
    returned, the result reports changed 'true' with the message "Preset
    deleted successfully" whether or not a preset of the name exists; the
    id and arn of the match are reported when there is one. *)
Theorem absent_check_mode_reports_deleted c fs m :
  arg_state m = absent ->
  check_mode m = true ->
  mutating (trace (main c fs m)) = [] ∧
  forall n id arn,
    given (arg_name m) = Some n ->
    result_of (get_preset_id c n) = Return (id, arn) ->
    exists r, result_of (main c fs m) = Return r ∧
      r !! "changed" = Some (PyStr "true") ∧
      r !! "msg" = Some (PyStr "Preset deleted successfully") ∧
      r !! "name" = Some (PyStr n) ∧
      (py_truthy id = true -> r !! "id" = Some id ∧ r !! "arn" = Some arn).
Proof.
  intros Hst Hcm. split.
  - rewrite main_trace, Hst.
    destruct (delete_preset_calls c m) as [H | (id & _ & H)]; [done | congruence].
  - intros n id arn Hn Hlk. rewrite main_result, Hst.
    rewrite (delete_preset_check_mode_result c m n id arn Hn Hlk Hcm).
    eexists. split; [done |]. unfold check_mode_delete_result.
    destruct (py_truthy id); done.
Qed.

(** C8 fails as stated: in check mode, with no preset named "ghost" in the
    catalog, the result reports changed 'true' and "Preset deleted
    successfully", not changed false with a not-found message. *)
Lemma absent_check_mode_ghost_reports_changed :
  Forall (fun q => Name q ≠ "ghost") (all_entries [last_page [sd_300]]) ∧
  main (service [last_page [sd_300]]) no_files (invoke_absent (Some "ghost") true) =
    ([ListPresets], Return (check_mode_delete_result "ghost" PyNone PyNone)) ∧
  check_mode_delete_result "ghost" PyNone PyNone !! "changed" = Some (PyStr "true") ∧
  check_mode_delete_result "ghost" PyNone PyNone !! "msg" =
    Some (PyStr "Preset deleted successfully").
Proof.
  split_and!.
  - repeat constructor. discriminate.
  - vm_compute. exact eq_refl.
  - vm_compute. exact eq_refl.
  - vm_compute. exact eq_refl.
Qed.

Lemma delete_preset_by_id_ok c preset_name preset_id :
  api_delete_preset c preset_id = None ->
  delete_preset_by_id c preset_name preset_id = ([DeletePreset preset_id], Return tt).
Proof. unfold delete_preset_by_id. by intros ->. Qed.

(** The run up to the container check, when the early return is not taken
    and the delete of recreate mode, if due, succeeds. *)
Lemma create_preset_past_delete c fs m n id arn :
  given (arg_name m) = Some n ->
  result_of (get_preset_id c n) = Return (id, arn) ->
  py_truthy id && negb (arg_recreate m) = false ->
  (py_truthy id && arg_recreate m = true -> api_delete_preset c id = None) ->
  result_of (create_preset c fs m) =
  match given (arg_container m) with
  | None => FailJson "Missing required argument: container"
  | Some container =>
      let params :=
        <["Container" := PyStr container]>
          (match given (arg_description m) with
           | Some d => <["Description" := PyStr d]> (<["Name" := PyStr n]> ∅)
           | None => <["Name" := PyStr n]> ∅
           end) in
      result_of (params ← build_params fs m params;
                 result ← call_create c m params initial_result;
                 mret (<["changed" := PyStr "true"]>
                        (<["msg" := PyStr "Preset created successfully"]> result)))
  end.
Proof.
  intros Hn Hlk Hearly Hdel. unfold create_preset.
  rewrite Hn, result_bind, Hlk, Hearly, result_bind.
  destruct (py_truthy id && arg_recreate m).
  - rewrite (delete_preset_by_id_ok _ _ _ (Hdel eq_refl)). cbn [result_of snd].
    by destruct (given (arg_container m)).
  - cbn [mret run_ret result_of snd]. by destruct (given (arg_container m)).
Qed.

Lemma creates_get_preset_id c n : creates (trace (get_preset_id c n)) = [].
Proof. apply creates_mutating, get_preset_id_not_mutating. Qed.

(** C6, as the code has it: when name is missing, a state=present
    invocation fails at once, before the lookup and before any call, with
    "Missing required argument: name".  When container is missing (and name
    is given), no create call is made; once the lookup has returned, the run
    either returns "Preset already exists" (a preset was found and recreate
    is false) or, with the delete of recreate mode behind it when one was
    due, fails with "Missing required argument: container". *)
Theorem present_missing_required_argument c fs m :
  arg_state m = present ->
  (given (arg_name m) = None ->
   main c fs m = ([], FailJson "Missing required argument: name")) ∧
  (given (arg_container m) = None ->
   creates (trace (main c fs m)) = [] ∧
   forall n id arn,
     given (arg_name m) = Some n ->
     result_of (get_preset_id c n) = Return (id, arn) ->
     if py_truthy id && negb (arg_recreate m)
     then exists r, result_of (main c fs m) = Return r ∧
            r !! "msg" = Some (PyStr "Preset already exists")
     else (py_truthy id && arg_recreate m = true -> api_delete_preset c id = None) ->
          result_of (main c fs m) = FailJson "Missing required argument: container").
Proof.
  intros Hst. split.
  - intros Hn. unfold main. by rewrite Hst, (create_preset_no_name _ _ _ Hn).
  - intros Hcont. split.
    + rewrite main_trace, Hst.
      destruct (given (arg_name m)) as [n |] eqn:Hn;
        [| by rewrite create_preset_no_name].
      destruct (result_of (get_preset_id c n)) as [[id arn] | msg | e] eqn:Hlk.
      * destruct (create_preset_trace c fs m n id arn Hn Hlk) as (cs & -> & Hcs & _).
        rewrite !creates_app, creates_get_preset_id.
        destruct Hcs as [-> | (p & _ & _ & [x Hx] & _)]; [| congruence].
        by destruct (py_truthy id && arg_recreate m).
      * rewrite (create_preset_lookup_fails c fs m n Hn); [apply creates_get_preset_id |].
        intros r. by rewrite Hlk.
      * rewrite (create_preset_lookup_fails c fs m n Hn); [apply creates_get_preset_id |].
        intros r. by rewrite Hlk.
    + intros n id arn Hn Hlk. rewrite main_result, Hst.
      destruct (py_truthy id && negb (arg_recreate m)) eqn:Hearly.
      * unfold create_preset. rewrite Hn, result_bind, Hlk, Hearly.
        eexists. split; [done |]. done.
      * intros Hdel.
        by rewrite (create_preset_past_delete c fs m n id arn Hn Hlk Hearly Hdel), Hcont.
Qed.

(** C6 fails as stated: with container missing, recreate true and the
    preset in the catalog, the run locates the preset and deletes it before
    it fails on the missing container. *)
Lemma present_missing_container_deletes_first :
  main (service [last_page [sd_300]]) preset_files
       (invoke_present (Some "test_300_sd_video") None (Some "video.json") true false) =
  ([ListPresets; DeletePreset (PyStr "1466672939342-kdjcje")],
   FailJson "Missing required argument: container").
Proof. vm_compute. exact eq_refl. Qed.

(** ** Document errors and validation *)

Lemma build_params_wrong_path fs m params path :
  given (arg_preset_document m) = Some path ->
  isfile fs path = false ->
  build_params fs m params =
    ([], FailJson ("Wrong path for preset_document: " ++ path)).
Proof.
  intros Hdoc Hfile. unfold build_params, load_preset_document.
  by rewrite Hdoc, Hfile.
Qed.

Lemma build_params_io_error fs m params path e :
  given (arg_preset_document m) = Some path ->
  isfile fs path = true ->
  json_load fs path = inl (IOError e) ->
  build_params fs m params =
    ([], FailJson ("Can't open video_template file - " ++ e)).
Proof.
  intros Hdoc Hfile Hload. unfold build_params, load_preset_document.
  by rewrite Hdoc, Hfile, Hload.
Qed.

(** No create call is made when the parameters never pass
    [build_params]. *)
Lemma create_preset_no_create c fs m :
  (forall params0 p, result_of (build_params fs m params0) ≠ Return p) ->
  creates (trace (create_preset c fs m)) = [].
Proof.
  intros Hbuild.
  destruct (given (arg_name m)) as [n |] eqn:Hn; [| by rewrite create_preset_no_name].
  destruct (result_of (get_preset_id c n)) as [[id arn] | msg | e] eqn:Hlk.
  - destruct (create_preset_trace c fs m n id arn Hn Hlk) as (cs & -> & Hcs & _).
    rewrite !creates_app, creates_get_preset_id.
    destruct Hcs as [-> | (p & _ & _ & _ & _ & params0 & Hp)];
      [| by destruct (Hbuild params0 p)].
    by destruct (py_truthy id && arg_recreate m).
  - rewrite (create_preset_lookup_fails c fs m n Hn); [apply creates_get_preset_id |].
    intros r. by rewrite Hlk.
  - rewrite (create_preset_lookup_fails c fs m n Hn); [apply creates_get_preset_id |].
    intros r. by rewrite Hlk.
Qed.

(** C7, as the code has it: in a state=present invocation that reaches the
    loading of the document (name and container given, the lookup returned,
    the run did not end on "Preset already exists", and the delete of
    recreate mode, if one was due, succeeded), a preset_document path that
    is not a file makes the run fail with "Wrong path for preset_document:"
    and the path, and a file that cannot be opened or read makes it fail
    with "Can't open video_template file - " and the cause; in both cases
    no create call is made. *)
Theorem present_document_unreadable c fs m n path id arn :
  arg_state m = present ->
  given (arg_name m) = Some n ->
  is_Some (given (arg_container m)) ->
  given (arg_preset_document m) = Some path ->
  result_of (get_preset_id c n) = Return (id, arn) ->
  py_truthy id && negb (arg_recreate m) = false ->
  (py_truthy id && arg_recreate m = true -> api_delete_preset c id = None) ->
  (isfile fs path = false ->
   result_of (main c fs m) = FailJson ("Wrong path for preset_document: " ++ path) ∧
   creates (trace (main c fs m)) = []) ∧
  (forall e,
     isfile fs path = true ->
     json_load fs path = inl (IOError e) ->
     result_of (main c fs m) = FailJson ("Can't open video_template file - " ++ e) ∧
     creates (trace (main c fs m)) = []).
Proof.
  intros Hst Hn [container Hcont] Hdoc Hlk Hearly Hdel.
  rewrite main_result, main_trace, Hst.
  rewrite (create_preset_past_delete c fs m n id arn Hn Hlk Hearly Hdel), Hcont.
  cbn zeta. split.
  - intros Hfile. split.
    + by rewrite result_bind, (build_params_wrong_path fs m _ path Hdoc Hfile).
    + apply create_preset_no_create. intros params0 p.
      by rewrite (build_params_wrong_path fs m _ path Hdoc Hfile).
  - intros e Hfile Hload. split.
    + by rewrite result_bind, (build_params_io_error fs m _ path e Hdoc Hfile Hload).
    + apply create_preset_no_create. intros params0 p.
      by rewrite (build_params_io_error fs m _ path e Hdoc Hfile Hload).
Qed.

(** C7 fails as stated: with recreate true, the preset in the catalog and a
    preset_document path that is not a file, the run has listed the catalog
    and deleted the preset by the time it fails on the path. *)
Lemma present_wrong_path_after_delete :
  isfile preset_files "missing.json" = false ∧
  main (service [last_page [sd_300]]) preset_files
       (invoke_present (Some "test_300_sd_video") (Some "mp4") (Some "missing.json")
                       true false) =
  ([ListPresets; DeletePreset (PyStr "1466672939342-kdjcje")],
   FailJson "Wrong path for preset_document: missing.json").
Proof. split; vm_compute; exact eq_refl. Qed.

Lemma copy_section_dict key d params v :
  d !! key = Some v ->
  copy_section key (PyDict d) params = ([], Return (<[key := v]> params)).
Proof.
  intros Hv. unfold copy_section, py_contains, py_getitem.
  rewrite Hv, bool_decide_eq_true_2 by eauto.
  cbn [lift]. by rewrite !bind_mret_l.
Qed.

Lemma len_is_zero_empty (params : pydict) key v :
  params !! key = Some v ->
  py_len v = inr 0 ->
  len_is_zero params key = ([], Return true).
Proof.
  intros Hv Hlen. unfold len_is_zero, py_getitem. rewrite Hv.
  cbn [lift]. rewrite bind_mret_l, Hlen. cbn [lift]. by rewrite bind_mret_l.
Qed.

Lemma build_params_empty_sections fs m params path d video audio thumbnails :
  given (arg_preset_document m) = Some path ->
  isfile fs path = true ->
  json_load fs path = inr (PyDict d) ->
  d !! "Video" = Some video -> py_len video = inr 0 ->
  d !! "Audio" = Some audio -> py_len audio = inr 0 ->
  d !! "Thumbnails" = Some thumbnails -> py_len thumbnails = inr 0 ->
  build_params fs m params =
    ([], FailJson "No specs provided for Video, Audio, or Thumbnails. ").
Proof.
  intros Hdoc Hfile Hload Hv Hlv Ha Hla Ht Hlt.
  unfold build_params, load_preset_document.
  rewrite Hdoc, Hfile, Hload. cbn [negb]. rewrite !bind_mret_l.
  rewrite (copy_section_dict _ _ _ _ Hv), bind_ret_l.
  rewrite (copy_section_dict _ _ _ _ Ha), bind_ret_l.
  rewrite (copy_section_dict _ _ _ _ Ht), bind_ret_l.
  unfold no_specs.
  rewrite (len_is_zero_empty _ "Video" video), bind_ret_l; [| | done].
  2: { by rewrite !lookup_insert_ne, lookup_insert_eq by done. }
  rewrite (len_is_zero_empty _ "Audio" audio), bind_ret_l; [| | done].
  2: { by rewrite lookup_insert_ne, lookup_insert_eq by done. }
  rewrite (len_is_zero_empty _ "Thumbnails" thumbnails), bind_ret_l; [| | done].
  2: { by rewrite lookup_insert_eq. }
  done.
Qed.

(** Malformed content: [json.load] raises [ValueError], which the handler
    of [IOError] lets through. *)
Lemma build_params_malformed fs m params path e :
  given (arg_preset_document m) = Some path ->
  isfile fs path = true ->
  json_load fs path = inl (ValueError e) ->
  build_params fs m params = ([], Raise (ValueError e)).
Proof.
  intros Hdoc Hfile Hload. unfold build_params, load_preset_document.
  by rewrite Hdoc, Hfile, Hload.
Qed.

Lemma copy_section_absent key d params :
  d !! key = None ->
  copy_section key (PyDict d) params = ([], Return params).
Proof.
  intros Hv. unfold copy_section, py_contains.
  rewrite Hv, bool_decide_eq_false_2 by (by intros [? ?]).
  cbn [lift]. by rewrite bind_mret_l.
Qed.

Lemma copy_section_dict_cases key d params :
  copy_section key (PyDict d) params =
  ([], Return match d !! key with
              | Some v => <[key := v]> params
              | None => params
              end).
Proof.
  destruct (d !! key) as [v |] eqn:Hv;
    [by apply copy_section_dict | by apply copy_section_absent].
Qed.

(** Any document that is a dictionary without a 'Video' key makes the
    validation raise [KeyError], whatever its other sections hold. *)
Lemma build_params_missing_video fs m (params : pydict) path d :
  given (arg_preset_document m) = Some path ->
  isfile fs path = true ->
  json_load fs path = inr (PyDict d) ->
  d !! "Video" = None ->
  params !! "Video" = None ->
  build_params fs m params = ([], Raise (KeyError "Video")).
Proof.
  intros Hdoc Hfile Hload Hv Hp.
  unfold build_params, load_preset_document.
  rewrite Hdoc, Hfile, Hload. cbn [negb]. rewrite !bind_mret_l.
  rewrite copy_section_dict_cases, bind_ret_l, Hv.
  do 2 rewrite copy_section_dict_cases, bind_ret_l.
  unfold no_specs, len_is_zero, py_getitem.
  destruct (d !! "Audio"), (d !! "Thumbnails");
    rewrite ?(lookup_insert_ne _ "Thumbnails" "Video"),
            ?(lookup_insert_ne _ "Audio" "Video") by done;
    by rewrite Hp.
Qed.

(** C2, as the code has it: in a state=present invocation that reaches the
    validation (name and container given, the lookup returned, the run did
    not end on "Preset already exists", the delete of recreate mode, if one
    was due, succeeded, and the document was loaded), a document whose
    Video, Audio and Thumbnails blocks are all present and empty makes the
    run fail with "No specs provided for Video, Audio, or Thumbnails. ", and
    no create call is made. *)
Theorem present_empty_sections_rejected
    c fs m n path d id arn video audio thumbnails :
  arg_state m = present ->
  given (arg_name m) = Some n ->
  is_Some (given (arg_container m)) ->
  result_of (get_preset_id c n) = Return (id, arn) ->
  py_truthy id && negb (arg_recreate m) = false ->
  (py_truthy id && arg_recreate m = true -> api_delete_preset c id = None) ->
  given (arg_preset_document m) = Some path ->
  isfile fs path = true ->
  json_load fs path = inr (PyDict d) ->
  d !! "Video" = Some video -> py_len video = inr 0 ->
  d !! "Audio" = Some audio -> py_len audio = inr 0 ->
  d !! "Thumbnails" = Some thumbnails -> py_len thumbnails = inr 0 ->
  result_of (main c fs m) =
    FailJson "No specs provided for Video, Audio, or Thumbnails. " ∧
  creates (trace (main c fs m)) = [].
Proof.
  intros Hst Hn [container Hcont] Hlk Hearly Hdel Hdoc Hfile Hload Hv Hlv Ha Hla Ht Hlt.
  pose proof (fun params => build_params_empty_sections fs m params path d
                video audio thumbnails Hdoc Hfile Hload Hv Hlv Ha Hla Ht Hlt) as Hbuild.
  rewrite main_result, main_trace, Hst. split.
  - rewrite (create_preset_past_delete c fs m n id arn Hn Hlk Hearly Hdel), Hcont.
    cbn zeta. by rewrite result_bind, Hbuild.
  - apply create_preset_no_create. intros params0 p. by rewrite Hbuild.
Qed.

(** C2 fails as stated: with no preset_document, the preset in the catalog
    and recreate false, the run does not fail: it returns "Preset already
    exists" without looking at the sections. *)
Lemma present_no_document_existing_preset_succeeds :
  main (service [last_page [sd_300]]) no_files
       (invoke_present (Some "test_300_sd_video") (Some "mp4") None false false) =
    ([ListPresets],
     Return (exit_json (already_exists_result "test_300_sd_video"
                          (PyStr (Id sd_300)) (PyStr (Arn sd_300))))) ∧
  exit_json (already_exists_result "test_300_sd_video"
               (PyStr (Id sd_300)) (PyStr (Arn sd_300))) !! "msg" =
    Some (PyStr "Preset already exists").
Proof. split; vm_compute; exact eq_refl. Qed.

(** C3, the code at a failing input: a document with an Audio section only,
    and no document at all.  In both runs the validation indexes params
    with 'Video', which was never set, and KeyError escapes. *)
Theorem present_missing_section_raises_key_error :
  main (service [last_page [other_preset]]) preset_files
       (invoke_present (Some "test_300_sd_video") (Some "mp3") (Some "audio.json")
                       false false) =
    ([ListPresets], Raise (KeyError "Video")) ∧
  main (service [last_page [other_preset]]) no_files
       (invoke_present (Some "test_300_sd_video") (Some "mp4") None false false) =
    ([ListPresets], Raise (KeyError "Video")).
Proof. split; vm_compute; exact eq_refl. Qed.

(** ** The mutating calls of an invocation *)

Lemma create_preset_lookup_fails_mutating c fs m n :
  given (arg_name m) = Some n ->
  (forall r, result_of (get_preset_id c n) ≠ Return r) ->
  mutating (trace (create_preset c fs m)) = [].
Proof.
  intros Hn Hfail. rewrite (create_preset_lookup_fails c fs m n Hn Hfail).
  apply get_preset_id_not_mutating.
Qed.

Lemma create_preset_calls c fs m n id arn :
  given (arg_name m) = Some n ->
  result_of (get_preset_id c n) = Return (id, arn) ->
  exists cs,
    mutating (trace (create_preset c fs m)) =
      ((if py_truthy id && arg_recreate m then [DeletePreset id] else []) ++ cs)%list
    ∧ (cs = [] ∨
       exists p, cs = [CreatePreset p] ∧ check_mode m = false ∧
         (py_truthy id && arg_recreate m = true -> api_delete_preset c id = None))
    ∧ (forall r, result_of (create_preset c fs m) = Return r ->
       check_mode m = false -> py_truthy id && negb (arg_recreate m) = false ->
       cs ≠ []).
Proof.
  intros Hn Hlk.
  destruct (create_preset_trace c fs m n id arn Hn Hlk) as (cs & -> & Hcs & Hret).
  exists cs. split_and!; [| | done].
  - rewrite !mutating_app, get_preset_id_not_mutating. cbn [app]. f_equal.
    + by destruct (py_truthy id && arg_recreate m).
    + by destruct Hcs as [-> | (p & -> & _)].
  - destruct Hcs as [-> | (p & -> & Hcm & _ & Hdel & _)]; [by left |].
    right. by exists p.
Qed.

(** C9, as the code has it: the mutating calls of an invocation are none,
    one create, one delete, or one delete followed by one create.  Two
    mutating calls are made only by a state=present invocation with
    recreate=true against an existing preset.  Such an invocation makes
    exactly one delete call first and at most one create call after it; the
    create call is made only after the delete has returned and outside check
    mode, and it is made whenever the invocation returns successfully
    outside check mode. *)
Theorem invocation_mutating_calls c fs m :
  (mutating (trace (main c fs m)) = [] ∨
   (exists p, mutating (trace (main c fs m)) = [CreatePreset p]) ∨
   (exists i, mutating (trace (main c fs m)) = [DeletePreset i]) ∨
   (exists i p, mutating (trace (main c fs m)) = [DeletePreset i; CreatePreset p])) ∧
  ((1 < length (mutating (trace (main c fs m))))%nat ->
   arg_state m = present ∧ arg_recreate m = true ∧
   exists n id arn,
     given (arg_name m) = Some n ∧
     result_of (get_preset_id c n) = Return (id, arn) ∧
     py_truthy id = true) ∧
  (forall n id arn,
     arg_state m = present ->
     arg_recreate m = true ->
     given (arg_name m) = Some n ->
     result_of (get_preset_id c n) = Return (id, arn) ->
     py_truthy id = true ->
     exists cs,
       mutating (trace (main c fs m)) = DeletePreset id :: cs ∧
       (cs = [] ∨
        exists p, cs = [CreatePreset p] ∧
          api_delete_preset c id = None ∧ check_mode m = false) ∧
       (forall r, result_of (main c fs m) = Return r -> check_mode m = false ->
          exists p, cs = [CreatePreset p])).
Proof.
  rewrite main_trace, main_result. split_and!.
  - destruct (arg_state m).
    + destruct (given (arg_name m)) as [n |] eqn:Hn;
        [| left; by rewrite create_preset_no_name].
      destruct (result_of (get_preset_id c n)) as [[id arn] | msg | e] eqn:Hlk.
      * destruct (create_preset_calls c fs m n id arn Hn Hlk) as (cs & -> & Hcs & _).
        destruct (py_truthy id && arg_recreate m);
          destruct Hcs as [-> | (p & -> & _)]; cbn [app]; eauto 6.
      * left. apply (create_preset_lookup_fails_mutating c fs m n Hn).
        intros r. by rewrite Hlk.
      * left. apply (create_preset_lookup_fails_mutating c fs m n Hn).
        intros r. by rewrite Hlk.
    + destruct (delete_preset_calls c m) as [-> | (id & -> & _)]; eauto 6.
  - destruct (arg_state m).
    + destruct (given (arg_name m)) as [n |] eqn:Hn;
        [| rewrite create_preset_no_name by done; cbn; lia].
      destruct (result_of (get_preset_id c n)) as [[id arn] | msg | e] eqn:Hlk.
      * destruct (create_preset_calls c fs m n id arn Hn Hlk) as (cs & -> & Hcs & _).
        destruct (py_truthy id) eqn:Hid, (arg_recreate m) eqn:Hre; cbn [andb app];
          try (destruct Hcs as [-> | (p & -> & _)]; cbn; lia).
        intros _. split_and!; [done | done |]. by exists n, id, arn.
      * rewrite (create_preset_lookup_fails_mutating c fs m n Hn); [cbn; lia |].
        intros r. by rewrite Hlk.
      * rewrite (create_preset_lookup_fails_mutating c fs m n Hn); [cbn; lia |].
        intros r. by rewrite Hlk.
    + destruct (delete_preset_calls c m) as [-> | (id & -> & _)]; cbn; lia.
  - intros n id arn -> Hre Hn Hlk Hid.
    destruct (create_preset_calls c fs m n id arn Hn Hlk) as (cs & -> & Hcs & Hret).
    rewrite Hid, Hre in *. cbn [andb negb app] in *.
    exists cs. split_and!; [done | |].
    + destruct Hcs as [-> | (p & -> & Hcm & Hdel)]; [by left |].
      right. exists p. by split_and!; [| apply Hdel |].
    + intros r Hr Hcm.
      destruct (result_of (create_preset c fs m)) as [r0 | |] eqn:Hr0; try done.
      specialize (Hret r0 eq_refl Hcm eq_refl).
      destruct Hcs as [-> | (p & -> & _)]; [done | by exists p].
Qed.

(** C9 fails as stated: with recreate true, the preset in the catalog and a
    document whose sections are all empty, the run makes the delete call
    and then fails in the validation; no create call follows. *)
Lemma recreate_empty_sections_deletes_only :
  main (service [last_page [sd_300]]) preset_files
       (invoke_present (Some "test_300_sd_video") (Some "mp4") (Some "empty.json")
                       true false) =
  ([ListPresets; DeletePreset (PyStr "1466672939342-kdjcje")],
   FailJson "No specs provided for Video, Audio, or Thumbnails. ").
Proof. vm_compute. exact eq_refl. Qed.

(** * The theorems at sample invocations *)

(** The preset sits on the second page, with a namesake after it. *)
Lemma present_existing_preset_unchanged_witness :
  mutating (trace (main (service two_pages) preset_files
    (invoke_present (Some "test_300_sd_video") (Some "mp4") (Some "video.json")
                    false false))) = [] ∧
  exists r,
    result_of (main (service two_pages) preset_files
      (invoke_present (Some "test_300_sd_video") (Some "mp4") (Some "video.json")
                      false false)) = Return r ∧
    r !! "id" = Some (PyStr "1466672939342-kdjcje") ∧
    r !! "msg" = Some (PyStr "Preset already exists") ∧
    r !! "changed" = Some (PyBool false).
Proof.
  destruct (present_existing_preset_unchanged (service two_pages) preset_files
              (invoke_present (Some "test_300_sd_video") (Some "mp4")
                              (Some "video.json") false false)
              "test_300_sd_video" (Id sd_300) (Arn sd_300)
              eq_refl eq_refl eq_refl eq_refl ltac:(discriminate))
    as (Hmut & _ & r & Hr & _ & Hid & _ & Hmsg & Hch).
  split; [exact Hmut |].
  exists r. repeat split; assumption.
Defined.

(** The first of two namesakes wins; a match on the first page stops the
    walk there; a name in another case matches nothing. *)
Lemma get_preset_id_first_match_witness :
  result_of (get_preset_id (service two_pages) "test_300_sd_video") =
    Return (PyStr "1466672939342-kdjcje",
            PyStr "arn:aws:elastictranscoder:us-east-1:123456789012:preset/1466672939342-kdjcje") ∧
  trace (get_preset_id (service two_pages) "test_600_sd") = [ListPresets] ∧
  get_preset_id (service two_pages) "TEST_600_SD" =
    ([ListPresets; ListPresets], Return (PyNone, PyNone)).
Proof.
  destruct (get_preset_id_first_match (service two_pages) "test_300_sd_video" two_pages
              eq_refl eq_refl) as (_ & Hfirst & _ & _).
  destruct (get_preset_id_first_match (service two_pages) "test_600_sd" two_pages
              eq_refl eq_refl) as (_ & _ & Hstop & _).
  destruct (get_preset_id_first_match (service two_pages) "TEST_600_SD" two_pages
              eq_refl eq_refl) as (_ & _ & _ & Hnone).
  split_and!.
  - apply (Hfirst [other_preset] sd_300 [sd_300_duplicate]); [reflexivity.. |].
    repeat constructor; discriminate.
  - apply (Hstop [] (more_page "page-2" [other_preset])
                 [last_page [sd_300; sd_300_duplicate]]); [reflexivity | constructor |].
    apply Exists_cons_hd. reflexivity.
  - apply Hnone. repeat constructor; discriminate.
Defined.

(** Check mode against an existing preset. *)
Lemma absent_check_mode_reports_deleted_witness :
  mutating (trace (main (service [last_page [sd_300]]) no_files
                        (invoke_absent (Some "test_300_sd_video") true))) = [] ∧
  exists r,
    result_of (main (service [last_page [sd_300]]) no_files
                    (invoke_absent (Some "test_300_sd_video") true)) = Return r ∧
    r !! "changed" = Some (PyStr "true") ∧
    r !! "id" = Some (PyStr "1466672939342-kdjcje").
Proof.
  destruct (absent_check_mode_reports_deleted (service [last_page [sd_300]]) no_files
              (invoke_absent (Some "test_300_sd_video") true) eq_refl eq_refl)
    as (Hmut & Hres).
  split; [exact Hmut |].
  destruct (Hres "test_300_sd_video" (PyStr (Id sd_300)) (PyStr (Arn sd_300))
                 eq_refl eq_refl) as (r & Hr & Hch & _ & _ & Hid).
  exists r. repeat split; [assumption.. |]. apply Hid. reflexivity.
Defined.

(** One invocation without name, one without container. *)
Lemma present_missing_required_argument_witness :
  main (service [last_page [sd_300]]) preset_files
       (invoke_present None (Some "mp4") (Some "video.json") false false) =
    ([], FailJson "Missing required argument: name") ∧
  creates (trace (main (service [last_page [other_preset]]) preset_files
    (invoke_present (Some "test_300_sd_video") None (Some "video.json") false false)))
  = [] ∧
  result_of (main (service [last_page [other_preset]]) preset_files
    (invoke_present (Some "test_300_sd_video") None (Some "video.json") false false))
  = FailJson "Missing required argument: container".
Proof.
  destruct (present_missing_required_argument (service [last_page [sd_300]]) preset_files
              (invoke_present None (Some "mp4") (Some "video.json") false false) eq_refl)
    as (Hname & _).
  destruct (present_missing_required_argument (service [last_page [other_preset]])
              preset_files
              (invoke_present (Some "test_300_sd_video") None (Some "video.json")
                              false false) eq_refl)
    as (_ & Hcont).
  destruct (Hcont eq_refl) as (Hcreates & Hres).
  split_and!; [exact (Hname eq_refl) | exact Hcreates |].
  apply (Hres "test_300_sd_video" PyNone PyNone eq_refl eq_refl). discriminate.
Defined.

(** A path that is not a file, and a file that cannot be read. *)
Lemma present_document_unreadable_witness :
  result_of (main (service [last_page [other_preset]]) preset_files
    (invoke_present (Some "test_300_sd_video") (Some "mp4") (Some "missing.json")
                    false false))
  = FailJson "Wrong path for preset_document: missing.json" ∧
  result_of (main (service [last_page [other_preset]]) unreadable_files
    (invoke_present (Some "test_300_sd_video") (Some "mp4") (Some "video.json")
                    false false))
  = FailJson "Can't open video_template file - [Errno 13] Permission denied" ∧
  creates (trace (main (service [last_page [other_preset]]) unreadable_files
    (invoke_present (Some "test_300_sd_video") (Some "mp4") (Some "video.json")
                    false false))) = [].
Proof.
  destruct (present_document_unreadable (service [last_page [other_preset]]) preset_files
              (invoke_present (Some "test_300_sd_video") (Some "mp4")
                              (Some "missing.json") false false)
              "test_300_sd_video" "missing.json" PyNone PyNone
              eq_refl eq_refl (ex_intro _ "mp4" eq_refl) eq_refl eq_refl eq_refl
              ltac:(discriminate))
    as (Hmissing & _).
  destruct (present_document_unreadable (service [last_page [other_preset]])
              unreadable_files
              (invoke_present (Some "test_300_sd_video") (Some "mp4")
                              (Some "video.json") false false)
              "test_300_sd_video" "video.json" PyNone PyNone
              eq_refl eq_refl (ex_intro _ "mp4" eq_refl) eq_refl eq_refl eq_refl
              ltac:(discriminate))
    as (_ & Hunreadable).
  destruct (Hmissing eq_refl) as (H1 & _).
  destruct (Hunreadable "[Errno 13] Permission denied" eq_refl eq_refl) as (H2 & H3).
  split_and!; assumption.
Defined.

(** The document of empty sections. *)
Lemma present_empty_sections_rejected_witness :
  result_of (main (service [last_page [other_preset]]) preset_files
    (invoke_present (Some "test_300_sd_video") (Some "mp4") (Some "empty.json")
                    false false))
  = FailJson "No specs provided for Video, Audio, or Thumbnails. " ∧
  creates (trace (main (service [last_page [other_preset]]) preset_files
    (invoke_present (Some "test_300_sd_video") (Some "mp4") (Some "empty.json")
                    false false))) = [].
Proof.
  apply (present_empty_sections_rejected (service [last_page [other_preset]]) preset_files
           (invoke_present (Some "test_300_sd_video") (Some "mp4") (Some "empty.json")
                           false false)
           "test_300_sd_video" "empty.json"
           (<["Video" := PyDict ∅]> (<["Audio" := PyDict ∅]>
              (<["Thumbnails" := PyDict ∅]> ∅)))
           PyNone PyNone (PyDict ∅) (PyDict ∅) (PyDict ∅));
    first [reflexivity | discriminate | by eexists].
Defined.

(** Recreate against an existing preset with a valid document. *)
Lemma invocation_mutating_calls_witness :
  exists p,
    mutating (trace (main (service [last_page [sd_300]]) preset_files
      (invoke_present (Some "test_300_sd_video") (Some "mp4") (Some "video.json")
                      true false)))
    = [DeletePreset (PyStr "1466672939342-kdjcje"); CreatePreset p].
Proof.
  destruct (invocation_mutating_calls (service [last_page [sd_300]]) preset_files
              (invoke_present (Some "test_300_sd_video") (Some "mp4")
                              (Some "video.json") true false))
    as (_ & _ & Hrecreate).
  destruct (Hrecreate "test_300_sd_video" (PyStr (Id sd_300)) (PyStr (Arn sd_300))
                      eq_refl eq_refl eq_refl eq_refl eq_refl)
    as (cs & Hmut & _ & Hret).
  destruct (Hret (exit_json (created_result created_preset))
                 ltac:(vm_compute; exact eq_refl) eq_refl) as (p & Hp).
  exists p. rewrite Hmut, Hp. reflexivity.
Defined.

(** * Further properties of the module *)

(** ** The locator *)

Lemma walk_pages_cut before pg after preset_name :
  NextPageToken pg = None ->
  walk_pages (before ++ inr pg :: after) preset_name =
  walk_pages (before ++ [inr pg]) preset_name.
Proof.
  intros Htok. induction before as [| [e | pg0] before IH].
  - cbn [app]. rewrite !walk_pages_cons, Htok. done.
  - done.
  - cbn [app]. rewrite !walk_pages_cons.
    destruct (find_in_page (entries pg0) preset_name); [done |].
    destruct (NextPageToken pg0); [by rewrite IH | done].
Qed.

(** X1: the walk ends at the first page without a NextPageToken: whatever
    the paginator would yield after such a page, pages, matches or errors,
    has no effect on the calls made or on the result. *)
Theorem get_preset_id_ignores_pages_after_last c1 c2 before pg after preset_name :
  api_list_presets c1 operation_parameters = (before ++ inr pg :: after)%list ->
  api_list_presets c2 operation_parameters = (before ++ [inr pg])%list ->
  NextPageToken pg = None ->
  get_preset_id c1 preset_name = get_preset_id c2 preset_name.
Proof.
  intros H1 H2 Htok. unfold get_preset_id. rewrite H1, H2.
  by apply walk_pages_cut.
Qed.

Lemma walk_pages_length it preset_name :
  (length (trace (walk_pages it preset_name)) ≤ length it)%nat.
Proof.
  induction it as [| [e | pg] rest IH]; [cbn; lia | cbn; lia |].
  rewrite walk_pages_cons, trace_bind. cbn [emit trace result_of fst snd].
  destruct (find_in_page (entries pg) preset_name); [cbn; lia |].
  destruct (NextPageToken pg); [| cbn; lia].
  unfold trace in *. cbn [app length fst]. lia.
Qed.

Lemma get_preset_id_reads c preset_name :
  exists k,
    trace (get_preset_id c preset_name) = repeat ListPresets k ∧
    (k ≤ length (api_list_presets c operation_parameters))%nat.
Proof.
  exists (length (trace (get_preset_id c preset_name))). split.
  - unfold get_preset_id. apply walk_pages_reads.
  - unfold get_preset_id. apply walk_pages_length.
Qed.

(** X2: when the listing raises, the invocation ends with that exception
    after the list calls alone: nothing is created or deleted, in either
    state. *)
Theorem listing_failure_ends_the_invocation c fs m n e :
  given (arg_name m) = Some n ->
  result_of (get_preset_id c n) = Raise e ->
  main c fs m = (trace (get_preset_id c n), Raise e) ∧
  mutating (trace (main c fs m)) = [].
Proof.
  intros Hn Hlk.
  assert (main c fs m = (trace (get_preset_id c n), Raise e)) as Hmain.
  { rewrite (run_eta (main c fs m)), main_trace, main_result.
    destruct (arg_state m).
    - rewrite (create_preset_lookup_fails c fs m n Hn) by (intros r; by rewrite Hlk).
      unfold create_preset. by rewrite Hn, result_bind, Hlk.
    - rewrite (delete_preset_lookup_fails c m n Hn) by (intros r; by rewrite Hlk).
      unfold delete_preset. by rewrite Hn, result_bind, Hlk. }
  split; [done |]. rewrite Hmain. apply get_preset_id_not_mutating.
Qed.

Lemma reads_then (k : nat) (w tr : list call) :
  tr = (repeat ListPresets k ++ w)%list ->
  mutating w = w ->
  tr = (repeat ListPresets k ++ mutating tr)%list.
Proof.
  intros -> Hw. by rewrite mutating_app, mutating_repeat_reads, Hw.
Qed.

(** X3: in every invocation all list calls come first: the calls are some
    number of page fetches, no more than the paginator can yield, followed
    by the mutating calls. *)
Theorem reads_precede_mutations c fs m :
  exists k,
    trace (main c fs m) = (repeat ListPresets k ++ mutating (trace (main c fs m)))%list ∧
    (k ≤ length (api_list_presets c operation_parameters))%nat.
Proof.
  rewrite main_trace.
  assert (forall n tr,
            (tr = trace (get_preset_id c n) ∨
             exists w, tr = (trace (get_preset_id c n) ++ w)%list ∧ mutating w = w) ->
            exists k, tr = (repeat ListPresets k ++ mutating tr)%list ∧
                      (k ≤ length (api_list_presets c operation_parameters))%nat) as Hshape.
  { intros n tr Htr. destruct (get_preset_id_reads c n) as (k & Hk & Hle).
    exists k. split; [| done]. rewrite Hk in Htr.
    destruct Htr as [-> | (w & -> & Hw)].
    - apply (reads_then k []); [by rewrite app_nil_r | done].
    - by apply (reads_then k w). }
  destruct (arg_state m).
  - destruct (given (arg_name m)) as [n |] eqn:Hn.
    + apply (Hshape n).
      destruct (result_of (get_preset_id c n)) as [[id arn] | msg | e] eqn:Hlk.
      * right. destruct (create_preset_trace c fs m n id arn Hn Hlk) as (cs & -> & Hcs & _).
        eexists. split; [done |]. rewrite mutating_app.
        destruct (py_truthy id && arg_recreate m);
          by destruct Hcs as [-> | (p & -> & _)].
      * left. apply (create_preset_lookup_fails c fs m n Hn). intros r. by rewrite Hlk.
      * left. apply (create_preset_lookup_fails c fs m n Hn). intros r. by rewrite Hlk.
    + exists 0. rewrite create_preset_no_name by done. split; [done | lia].
  - destruct (given (arg_name m)) as [n |] eqn:Hn.
    + apply (Hshape n).
      destruct (result_of (get_preset_id c n)) as [[id arn] | msg | e] eqn:Hlk.
      * right. rewrite (delete_preset_trace c m n id arn Hn Hlk).
        eexists. split; [done |].
        by destruct (py_truthy id && negb (check_mode m)).
      * left. apply (delete_preset_lookup_fails c m n Hn). intros r. by rewrite Hlk.
      * left. apply (delete_preset_lookup_fails c m n Hn). intros r. by rewrite Hlk.
    + exists 0. rewrite delete_preset_no_name by done. split; [done | lia].
Qed.

(** ** The absent reconciler *)

(** X4: a state=absent invocation outside check mode that finds a preset
    deletes it by the id the locator returned, with one delete call after
    the listing, and when the call returns it reports that id and arn, the
    name asked for, "Preset deleted successfully" and changed 'true'. *)
Theorem absent_deletes_located_preset c fs m n id arn :
  arg_state m = absent ->
  check_mode m = false ->
  given (arg_name m) = Some n ->
  result_of (get_preset_id c n) = Return (id, arn) ->
  py_truthy id = true ->
  api_delete_preset c id = None ->
  trace (main c fs m) = (trace (get_preset_id c n) ++ [DeletePreset id])%list ∧
  exists r, result_of (main c fs m) = Return r ∧
    r !! "name" = Some (PyStr n) ∧
    r !! "id" = Some id ∧
    r !! "arn" = Some arn ∧
    r !! "msg" = Some (PyStr "Preset deleted successfully") ∧
    r !! "changed" = Some (PyStr "true").
Proof.
  intros Hst Hcm Hn Hlk Hid Hdel. split.
  - rewrite main_trace, Hst, (delete_preset_trace c m n id arn Hn Hlk).
    by rewrite Hid, Hcm.
  - rewrite main_result, Hst. unfold delete_preset.
    rewrite Hn, result_bind, Hlk, Hid, Hcm. cbn [negb].
    rewrite !result_bind. cbn [emit result_of snd]. rewrite Hdel.
    eexists. split; [done |]. done.
Qed.

(** X5: when the delete call of a state=absent invocation is refused with a
    ClientError, the invocation fails with "Failed to delete preset", the
    name and the text of the error; any other exception of the call
    escapes as it is.  The delete call is the only mutating call made. *)
Theorem absent_delete_failure c fs m n id arn e :
  arg_state m = absent ->
  check_mode m = false ->
  given (arg_name m) = Some n ->
  result_of (get_preset_id c n) = Return (id, arn) ->
  py_truthy id = true ->
  api_delete_preset c id = Some e ->
  main c fs m =
    ((trace (get_preset_id c n) ++ [DeletePreset id])%list,
     match e with
     | ClientError text => FailJson ("Failed to delete preset " ++ n ++ ": " ++ text)
     | _ => Raise e
     end).
Proof.
  intros Hst Hcm Hn Hlk Hid Hdel.
  rewrite (run_eta (main c fs m)), main_trace, main_result, Hst.
  rewrite (delete_preset_trace c m n id arn Hn Hlk), Hid, Hcm. cbn [andb negb].
  f_equal. unfold delete_preset.
  rewrite Hn, result_bind, Hlk, Hid, Hcm. cbn [negb].
  rewrite !result_bind. cbn [emit result_of snd]. rewrite Hdel.
  by destruct e.
Qed.

(** X6: an invocation whose name is missing or the empty string fails with
    "Missing required argument: name" before any call to the service, the
    listing included, in either state. *)
Theorem missing_name_fails_before_any_call c fs m :
  arg_name m = None ∨ arg_name m = Some "" ->
  main c fs m = ([], FailJson "Missing required argument: name").
Proof.
  intros Hname.
  assert (given (arg_name m) = None) as Hn by (by destruct Hname as [-> | ->]).
  unfold main. destruct (arg_state m).
  - by rewrite create_preset_no_name.
  - by rewrite delete_preset_no_name.
Qed.

(** X7: a state=absent invocation depends on the name and on check mode
    only: the container, the description, the recreate flag, the document
    path and the files have no effect on its calls or on its outcome, and it
    never makes a create call. *)
Theorem absent_uses_name_and_check_mode_only c fs fs' m m' :
  arg_state m = absent ->
  arg_state m' = absent ->
  arg_name m = arg_name m' ->
  check_mode m = check_mode m' ->
  main c fs m = main c fs' m' ∧ creates (trace (main c fs m)) = [].
Proof.
  intros Hst Hst' Hname Hcm. split.
  - unfold main, delete_preset. by rewrite Hst, Hst', Hname, Hcm.
  - rewrite main_trace, Hst.
    destruct (delete_preset_calls c m) as [H | (id & H & _)].
    + by apply creates_mutating.
    + unfold creates. unfold mutating in H.
      rewrite <- (list_filter_filter_l (fun x => is_create x = true)
                    (fun x => is_mutating x = true)).
      * by rewrite H.
      * intros x Hx. unfold is_mutating. by rewrite Hx.
Qed.

(** ** The validation, for a document that is a dictionary *)

Lemma len_is_zero_eval (params : pydict) key :
  len_is_zero params key =
  ([], match params !! key with
       | Some v =>
           match py_len v with
           | inr n => Return (Nat.eqb n 0)
           | inl e => Raise e
           end
       | None => Raise (KeyError key)
       end).
Proof.
  unfold len_is_zero, py_getitem. destruct (params !! key) as [v |]; [| done].
  cbn [lift]. rewrite bind_mret_l. by destruct (py_len v).
Qed.

Lemma no_specs_eval (params : pydict) : no_specs params = ([], specs_check params).
Proof.
  unfold no_specs, specs_check. rewrite !len_is_zero_eval.
  destruct (params !! "Video") as [video |]; [| done].
  destruct (py_len video) as [e | [| k]]; [done | | done].
  cbn [Nat.eqb]. rewrite bind_ret_l.
  destruct (params !! "Audio") as [audio |]; [| done].
  destruct (py_len audio) as [e | [| k]]; [done | | done].
  cbn [Nat.eqb]. rewrite bind_ret_l.
  destruct (params !! "Thumbnails") as [thumbnails |]; [| done].
  by destruct (py_len thumbnails).
Qed.

Lemma build_params_dict fs m params path d :
  given (arg_preset_document m) = Some path ->
  isfile fs path = true ->
  json_load fs path = inr (PyDict d) ->
  build_params fs m params =
  ([], match specs_check (with_sections d params) with
       | Return true => FailJson "No specs provided for Video, Audio, or Thumbnails. "
       | Return false => Return (with_sections d params)
       | FailJson msg => FailJson msg
       | Raise e => Raise e
       end).
Proof.
  intros Hdoc Hfile Hload. unfold build_params, load_preset_document.
  rewrite Hdoc, Hfile, Hload. cbn [negb]. rewrite !bind_mret_l.
  do 3 rewrite copy_section_dict_cases, bind_ret_l.
  fold (with_section "Video" d params).
  fold (with_section "Audio" d (with_section "Video" d params)).
  fold (with_section "Thumbnails" d
          (with_section "Audio" d (with_section "Video" d params))).
  fold (with_sections d params).
  rewrite no_specs_eval.
  by destruct (specs_check (with_sections d params)) as [[] | |].
Qed.

Lemma with_sections_lookup d params key :
  key = "Video" ∨ key = "Audio" ∨ key = "Thumbnails" ->
  with_sections d params !! key =
  match d !! key with
  | Some v => Some v
  | None => params !! key
  end.
Proof.
  unfold with_sections, with_section.
  intros [-> | [-> | ->]];
    destruct (d !! "Video"), (d !! "Audio"), (d !! "Thumbnails");
    by simplify_map_eq.
Qed.

Lemma with_sections_lookup_other d params key :
  key ≠ "Video" -> key ≠ "Audio" -> key ≠ "Thumbnails" ->
  with_sections d params !! key = params !! key.
Proof.
  unfold with_sections, with_section. intros H1 H2 H3.
  destruct (d !! "Video"), (d !! "Audio"), (d !! "Thumbnails");
    by simplify_map_eq.
Qed.

Lemma specs_check_accepted d params :
  specs_accepted d = true ->
  specs_check (with_sections d params) = Return false.
Proof.
  unfold specs_accepted, section_nonempty, section_empty, specs_check.
  rewrite !with_sections_lookup by auto.
  destruct (d !! "Video") as [video |]; [| done].
  destruct (py_len video) as [e | [| k]]; [done | | done].
  destruct (d !! "Audio") as [audio |]; [| done].
  destruct (py_len audio) as [e | [| k]]; [done | | done].
  destruct (d !! "Thumbnails") as [thumbnails |]; [| done].
  by destruct (py_len thumbnails) as [e | [| k]].
Qed.

(** ** The create path *)

Lemma call_create_check_mode c m params result :
  check_mode m = true ->
  call_create c m params result = ([], Return result).
Proof. unfold call_create. by intros ->. Qed.

Lemma call_create_run c m params result :
  check_mode m = false ->
  call_create c m params result =
  ([CreatePreset params],
   match api_create_preset c params with
   | inr created =>
       Return (<["arn" := PyStr (Arn created)]> (<["id" := PyStr (Id created)]>
                (<["name" := PyStr (Name created)]> result)))
   | inl (ClientError text) => FailJson ("Invalid preset settings: " ++ text)
   | inl e => Raise e
   end).
Proof.
  unfold call_create. intros ->. cbn [negb].
  by destruct (api_create_preset c params) as [[] |].
Qed.

(** The whole run of [create_preset] past the early return, in terms of
    what [build_params] and [call_create] do. *)
Lemma create_preset_run c fs m n id arn container :
  given (arg_name m) = Some n ->
  result_of (get_preset_id c n) = Return (id, arn) ->
  py_truthy id && negb (arg_recreate m) = false ->
  (py_truthy id && arg_recreate m = true -> api_delete_preset c id = None) ->
  given (arg_container m) = Some container ->
  create_preset c fs m =
  ((trace (get_preset_id c n) ++
    (if py_truthy id && arg_recreate m then [DeletePreset id] else []))%list,
   Return tt) ≫= fun _ =>
  (params ← build_params fs m (base_params m n container);
   result ← call_create c m params initial_result;
   mret (<["changed" := PyStr "true"]>
          (<["msg" := PyStr "Preset created successfully"]> result))).
Proof.
  intros Hn Hlk Hearly Hdel Hcont.
  rewrite (run_eta (create_preset c fs m)), (run_eta (_ ≫= _)).
  f_equal.
  - rewrite trace_bind. cbn [trace result_of fst snd].
    unfold create_preset, base_params.
    rewrite Hn, trace_bind, Hlk, Hearly, trace_bind.
    destruct (py_truthy id && arg_recreate m).
    + rewrite (delete_preset_by_id_ok _ _ _ (Hdel eq_refl)).
      cbn [trace result_of fst snd]. by rewrite Hcont, <- app_assoc.
    + cbn [mret run_ret trace result_of fst snd app]. by rewrite Hcont, app_nil_r.
  - rewrite result_bind. cbn [result_of snd].
    by rewrite (create_preset_past_delete c fs m n id arn Hn Hlk Hearly Hdel), Hcont.
Qed.

Lemma create_preset_run_built c fs m n id arn container o :
  given (arg_name m) = Some n ->
  result_of (get_preset_id c n) = Return (id, arn) ->
  py_truthy id && negb (arg_recreate m) = false ->
  (py_truthy id && arg_recreate m = true -> api_delete_preset c id = None) ->
  given (arg_container m) = Some container ->
  build_params fs m (base_params m n container) = ([], o) ->
  create_preset c fs m =
  match o with
  | Return params =>
      ((trace (get_preset_id c n) ++
        (if py_truthy id && arg_recreate m then [DeletePreset id] else []) ++
        trace (call_create c m params initial_result))%list,
       match result_of (call_create c m params initial_result) with
       | Return result =>
           Return (<["changed" := PyStr "true"]>
                    (<["msg" := PyStr "Preset created successfully"]> result))
       | FailJson msg => FailJson msg
       | Raise e => Raise e
       end)
  | FailJson msg =>
      ((trace (get_preset_id c n) ++
        (if py_truthy id && arg_recreate m then [DeletePreset id] else []))%list,
       FailJson msg)
  | Raise e =>
      ((trace (get_preset_id c n) ++
        (if py_truthy id && arg_recreate m then [DeletePreset id] else []))%list,
       Raise e)
  end.
Proof.
  intros Hn Hlk Hearly Hdel Hcont Hbuild.
  rewrite (create_preset_run c fs m n id arn container Hn Hlk Hearly Hdel Hcont).
  rewrite Hbuild. destruct o as [params | msg | e].
  - rewrite bind_ret_l.
    destruct (call_create c m params initial_result) as [tr [r | msg | e]];
      cbn; by rewrite ?app_nil_r, <- ?app_assoc.
  - cbn. by rewrite app_nil_r.
  - cbn. by rewrite app_nil_r.
Qed.

Lemma main_run c fs m tr o :
  arg_state m = present ->
  create_preset c fs m = (tr, o) ->
  main c fs m =
  (tr, match o with
       | Return results => Return (exit_json results)
       | FailJson msg => FailJson msg
       | Raise e => Raise e
       end).
Proof.
  intros Hst Hrun. rewrite (run_eta (main c fs m)), main_trace, main_result, Hst.
  by rewrite Hrun.
Qed.

(** X8: a state=present invocation outside check mode that gets past the
    early return, with name and container and a document the validation
    lets through, makes one create call after the listing (and after the
    delete of recreate mode).  The call carries the name, the container,
    the description if one is given, and exactly those of the sections
    Video, Audio and Thumbnails the document has, nothing else.  When the
    call returns, the result reports the name, id and arn the service
    answered, "Preset created successfully" and changed 'true'. *)
Theorem present_creates_preset c fs m n id arn container path d created :
  arg_state m = present ->
  check_mode m = false ->
  given (arg_name m) = Some n ->
  given (arg_container m) = Some container ->
  result_of (get_preset_id c n) = Return (id, arn) ->
  py_truthy id && negb (arg_recreate m) = false ->
  (py_truthy id && arg_recreate m = true -> api_delete_preset c id = None) ->
  given (arg_preset_document m) = Some path ->
  isfile fs path = true ->
  json_load fs path = inr (PyDict d) ->
  specs_accepted d = true ->
  api_create_preset c (with_sections d (base_params m n container)) = inr created ->
  exists params,
    main c fs m =
      ((trace (get_preset_id c n) ++
        (if py_truthy id && arg_recreate m then [DeletePreset id] else []) ++
        [CreatePreset params])%list,
       Return (created_result created)) ∧
    params !! "Name" = Some (PyStr n) ∧
    params !! "Container" = Some (PyStr container) ∧
    params !! "Description" = PyStr <$> given (arg_description m) ∧
    params !! "Video" = d !! "Video" ∧
    params !! "Audio" = d !! "Audio" ∧
    params !! "Thumbnails" = d !! "Thumbnails" ∧
    (forall key,
       key ∉ ["Name"; "Container"; "Description"; "Video"; "Audio"; "Thumbnails"] ->
       params !! key = None).
Proof.
  intros Hst Hcm Hn Hcont Hlk Hearly Hdel Hdoc Hfile Hload Hacc Hcreate.
  exists (with_sections d (base_params m n container)).
  assert (forall key, key = "Video" ∨ key = "Audio" ∨ key = "Thumbnails" ->
            base_params m n container !! key = None) as Hbase.
  { unfold base_params. intros key [-> | [-> | ->]];
      destruct (given (arg_description m)); by simplify_map_eq. }
  split_and!.
  - assert (build_params fs m (base_params m n container) =
            ([], Return (with_sections d (base_params m n container)))) as Hbuild.
    { rewrite (build_params_dict fs m _ path d Hdoc Hfile Hload).
      by rewrite specs_check_accepted. }
    rewrite (main_run c fs m _ _ Hst
               (create_preset_run_built c fs m n id arn container _
                  Hn Hlk Hearly Hdel Hcont Hbuild)).
    rewrite (call_create_run c m _ _ Hcm), Hcreate. done.
  - rewrite with_sections_lookup_other by done.
    unfold base_params. destruct (given (arg_description m)); by simplify_map_eq.
  - rewrite with_sections_lookup_other by done.
    unfold base_params. by simplify_map_eq.
  - rewrite with_sections_lookup_other by done.
    unfold base_params. destruct (given (arg_description m)); by simplify_map_eq.
  - rewrite with_sections_lookup, Hbase by auto. by destruct (d !! "Video").
  - rewrite with_sections_lookup, Hbase by auto. by destruct (d !! "Audio").
  - rewrite with_sections_lookup, Hbase by auto. by destruct (d !! "Thumbnails").
  - intros key Hkey. rewrite !not_elem_of_cons in Hkey.
    destruct Hkey as (H1 & H2 & H3 & H4 & H5 & H6 & _).
    rewrite with_sections_lookup_other by done.
    unfold base_params. destruct (given (arg_description m)); by simplify_map_eq.
Qed.

Lemma base_params_no_section m n container key :
  key = "Video" ∨ key = "Audio" ∨ key = "Thumbnails" ->
  base_params m n container !! key = None.
Proof.
  unfold base_params. intros [-> | [-> | ->]];
    destruct (given (arg_description m)); by simplify_map_eq.
Qed.

Lemma sent_section m n container d key :
  key = "Video" ∨ key = "Audio" ∨ key = "Thumbnails" ->
  with_sections d (base_params m n container) !! key = d !! key.
Proof.
  intros Hkey. rewrite with_sections_lookup, base_params_no_section by done.
  by destruct (d !! key).
Qed.

(** The run of a state=present invocation that reaches the validation with
    a document that is a dictionary and whose validation raises. *)
Lemma present_validation_raises c fs m n id arn container path d e :
  arg_state m = present ->
  given (arg_name m) = Some n ->
  given (arg_container m) = Some container ->
  result_of (get_preset_id c n) = Return (id, arn) ->
  py_truthy id && negb (arg_recreate m) = false ->
  (py_truthy id && arg_recreate m = true -> api_delete_preset c id = None) ->
  given (arg_preset_document m) = Some path ->
  isfile fs path = true ->
  json_load fs path = inr (PyDict d) ->
  specs_check (with_sections d (base_params m n container)) = Raise e ->
  main c fs m =
    ((trace (get_preset_id c n) ++
      (if py_truthy id && arg_recreate m then [DeletePreset id] else []))%list,
     Raise e).
Proof.
  intros Hst Hn Hcont Hlk Hearly Hdel Hdoc Hfile Hload Hcheck.
  assert (build_params fs m (base_params m n container) = ([], Raise e)) as Hbuild.
  { by rewrite (build_params_dict fs m _ path d Hdoc Hfile Hload), Hcheck. }
  by rewrite (main_run c fs m _ _ Hst
                (create_preset_run_built c fs m n id arn container _
                   Hn Hlk Hearly Hdel Hcont Hbuild)).
Qed.

(** X9: in a state=present invocation that reaches the validation with a
    document that is a dictionary, a missing section raises KeyError as
    soon as the validation gets to it: 'Video' when the document has no
    Video section, 'Audio' when Video is empty and Audio is missing,
    'Thumbnails' when Video and Audio are empty and Thumbnails is missing.
    The exception escapes and no create call is made. *)
Theorem present_missing_section_key_error c fs m n id arn container path d :
  arg_state m = present ->
  given (arg_name m) = Some n ->
  given (arg_container m) = Some container ->
  result_of (get_preset_id c n) = Return (id, arn) ->
  py_truthy id && negb (arg_recreate m) = false ->
  (py_truthy id && arg_recreate m = true -> api_delete_preset c id = None) ->
  given (arg_preset_document m) = Some path ->
  isfile fs path = true ->
  json_load fs path = inr (PyDict d) ->
  let calls := (trace (get_preset_id c n) ++
                (if py_truthy id && arg_recreate m then [DeletePreset id] else []))%list in
  (d !! "Video" = None -> main c fs m = (calls, Raise (KeyError "Video"))) ∧
  (section_empty d "Video" = true -> d !! "Audio" = None ->
   main c fs m = (calls, Raise (KeyError "Audio"))) ∧
  (section_empty d "Video" = true -> section_empty d "Audio" = true ->
   d !! "Thumbnails" = None ->
   main c fs m = (calls, Raise (KeyError "Thumbnails"))).
Proof.
  intros Hst Hn Hcont Hlk Hearly Hdel Hdoc Hfile Hload calls. subst calls.
  pose proof (fun e => present_validation_raises c fs m n id arn container path d e
                         Hst Hn Hcont Hlk Hearly Hdel Hdoc Hfile Hload) as Hraise.
  unfold section_empty. split_and!.
  - intros Hv. apply Hraise. unfold specs_check.
    by rewrite sent_section, Hv by auto.
  - intros Hv Ha. apply Hraise. unfold specs_check.
    rewrite !sent_section, Ha by auto.
    destruct (d !! "Video") as [video |]; [| done].
    by destruct (py_len video) as [e | [| k]].
  - intros Hv Ha Ht. apply Hraise. unfold specs_check.
    rewrite !sent_section, Ht by auto.
    destruct (d !! "Video") as [video |]; [| done].
    destruct (py_len video) as [e | [| k]]; try done.
    destruct (d !! "Audio") as [audio |]; [| done].
    by destruct (py_len audio) as [e | [| k]].
Qed.

(** X10: a section the validation gets to and that has no length (null, a
    number or a boolean) makes len raise; the TypeError escapes and no
    create call is made.  This holds for Video, and for Audio when Video is
    empty. *)
Theorem present_section_without_length c fs m n id arn container path d v e :
  arg_state m = present ->
  given (arg_name m) = Some n ->
  given (arg_container m) = Some container ->
  result_of (get_preset_id c n) = Return (id, arn) ->
  py_truthy id && negb (arg_recreate m) = false ->
  (py_truthy id && arg_recreate m = true -> api_delete_preset c id = None) ->
  given (arg_preset_document m) = Some path ->
  isfile fs path = true ->
  json_load fs path = inr (PyDict d) ->
  py_len v = inl e ->
  d !! "Video" = Some v ∨ (section_empty d "Video" = true ∧ d !! "Audio" = Some v) ->
  main c fs m =
    ((trace (get_preset_id c n) ++
      (if py_truthy id && arg_recreate m then [DeletePreset id] else []))%list,
     Raise e).
Proof.
  intros Hst Hn Hcont Hlk Hearly Hdel Hdoc Hfile Hload Hlen Hsec.
  apply (present_validation_raises c fs m n id arn container path d e
           Hst Hn Hcont Hlk Hearly Hdel Hdoc Hfile Hload).
  unfold specs_check, section_empty in *. rewrite !sent_section by auto.
  destruct Hsec as [Hv | [Hv Ha]].
  - by rewrite Hv, Hlen.
  - rewrite Ha, Hlen.
    destruct (d !! "Video") as [video |]; [| done].
    by destruct (py_len video) as [e' | [| k]].
Qed.

(** X11: when the service refuses the create call with a ClientError, the
    invocation fails with "Invalid preset settings: " and the text of the
    error; any other exception of the call escapes.  Nothing is undone: in
    recreate mode the delete call has been made before, so the trace is the
    listing, the delete and the refused create. *)
Theorem present_create_failure c fs m n id arn container path d e :
  arg_state m = present ->
  check_mode m = false ->
  given (arg_name m) = Some n ->
  given (arg_container m) = Some container ->
  result_of (get_preset_id c n) = Return (id, arn) ->
  py_truthy id && negb (arg_recreate m) = false ->
  (py_truthy id && arg_recreate m = true -> api_delete_preset c id = None) ->
  given (arg_preset_document m) = Some path ->
  isfile fs path = true ->
  json_load fs path = inr (PyDict d) ->
  specs_accepted d = true ->
  api_create_preset c (with_sections d (base_params m n container)) = inl e ->
  main c fs m =
    ((trace (get_preset_id c n) ++
      (if py_truthy id && arg_recreate m then [DeletePreset id] else []) ++
      [CreatePreset (with_sections d (base_params m n container))])%list,
     match e with
     | ClientError text => FailJson ("Invalid preset settings: " ++ text)
     | _ => Raise e
     end).
Proof.
  intros Hst Hcm Hn Hcont Hlk Hearly Hdel Hdoc Hfile Hload Hacc Hcreate.
  assert (build_params fs m (base_params m n container) =
          ([], Return (with_sections d (base_params m n container)))) as Hbuild.
  { rewrite (build_params_dict fs m _ path d Hdoc Hfile Hload).
    by rewrite specs_check_accepted. }
  rewrite (main_run c fs m _ _ Hst
             (create_preset_run_built c fs m n id arn container _
                Hn Hlk Hearly Hdel Hcont Hbuild)).
  rewrite (call_create_run c m _ _ Hcm), Hcreate. by destruct e.
Qed.

(** X12: in check mode a state=present invocation that gets past the
    validation makes no create call and still reports "Preset created
    successfully" with changed 'true'; name, id and arn stay the empty
    strings the result started with. *)
Theorem present_check_mode_reports_created c fs m n id arn container path d :
  arg_state m = present ->
  check_mode m = true ->
  given (arg_name m) = Some n ->
  given (arg_container m) = Some container ->
  result_of (get_preset_id c n) = Return (id, arn) ->
  py_truthy id && negb (arg_recreate m) = false ->
  (py_truthy id && arg_recreate m = true -> api_delete_preset c id = None) ->
  given (arg_preset_document m) = Some path ->
  isfile fs path = true ->
  json_load fs path = inr (PyDict d) ->
  specs_accepted d = true ->
  creates (trace (main c fs m)) = [] ∧
  exists r, result_of (main c fs m) = Return r ∧
    r !! "msg" = Some (PyStr "Preset created successfully") ∧
    r !! "changed" = Some (PyStr "true") ∧
    r !! "name" = Some (PyStr "") ∧
    r !! "id" = Some (PyStr "") ∧
    r !! "arn" = Some (PyStr "").
Proof.
  intros Hst Hcm Hn Hcont Hlk Hearly Hdel Hdoc Hfile Hload Hacc.
  assert (build_params fs m (base_params m n container) =
          ([], Return (with_sections d (base_params m n container)))) as Hbuild.
  { rewrite (build_params_dict fs m _ path d Hdoc Hfile Hload).
    by rewrite specs_check_accepted. }
  rewrite (main_run c fs m _ _ Hst
             (create_preset_run_built c fs m n id arn container _
                Hn Hlk Hearly Hdel Hcont Hbuild)).
  rewrite (call_create_check_mode c m _ _ Hcm). cbn [trace result_of fst snd].
  split.
  - rewrite !creates_app, creates_get_preset_id.
    by destruct (py_truthy id && arg_recreate m).
  - eexists. split; [done |]. done.
Qed.

(** X13: check mode does not hold back the delete of recreate mode: a
    state=present invocation in check mode with recreate=true against an
    existing preset makes the delete call, and that is its only mutating
    call. *)
Theorem present_check_mode_recreate_deletes c fs m n id arn :
  arg_state m = present ->
  check_mode m = true ->
  arg_recreate m = true ->
  given (arg_name m) = Some n ->
  result_of (get_preset_id c n) = Return (id, arn) ->
  py_truthy id = true ->
  mutating (trace (main c fs m)) = [DeletePreset id].
Proof.
  intros Hst Hcm Hre Hn Hlk Hid. rewrite main_trace, Hst.
  destruct (create_preset_calls c fs m n id arn Hn Hlk) as (cs & -> & Hcs & _).
  rewrite Hid, Hre. cbn [andb app].
  destruct Hcs as [-> | (p & _ & Hcm' & _)]; [done | congruence].
Qed.

(** X14: when the delete call of recreate mode raises, the invocation ends
    there: no create call follows.  A ClientError reaches a handler that
    refers to a name, module, that the function does not have, so what
    escapes is a NameError; any other exception escapes as it is. *)
Theorem present_recreate_delete_failure c fs m n id arn e :
  arg_state m = present ->
  arg_recreate m = true ->
  given (arg_name m) = Some n ->
  result_of (get_preset_id c n) = Return (id, arn) ->
  py_truthy id = true ->
  api_delete_preset c id = Some e ->
  main c fs m =
    ((trace (get_preset_id c n) ++ [DeletePreset id])%list,
     Raise match e with
           | ClientError _ => NameError "module"
           | _ => e
           end).
Proof.
  intros Hst Hre Hn Hlk Hid Hdel.
  assert (create_preset c fs m =
          ((trace (get_preset_id c n) ++ [DeletePreset id])%list,
           Raise match e with
                 | ClientError _ => NameError "module"
                 | _ => e
                 end)) as Hrun.
  { rewrite (run_eta (create_preset c fs m)). unfold create_preset.
    rewrite Hn, trace_bind, result_bind, Hlk, Hid, Hre. cbn [andb negb].
    rewrite trace_bind, result_bind, delete_preset_by_id_trace.
    unfold delete_preset_by_id. rewrite !result_bind. cbn [emit result_of snd].
    rewrite Hdel. by destruct e. }
  by rewrite (main_run c fs m _ _ Hst Hrun).
Qed.

(** ** Documents that are not a dictionary *)

Lemma copy_section_not_dict key doc params :
  (forall d, doc ≠ PyDict d) ->
  (exists e, copy_section key doc params = ([], Raise e)) ∨
  copy_section key doc params = ([], Return params).
Proof.
  intros Hdoc. unfold copy_section, py_contains, py_getitem.
  destruct doc as [| b | z | s | l | d]; try (left; by eexists).
  - destruct (String.index 0 key s); cbn [lift]; rewrite bind_mret_l;
      [left; by eexists | by right].
  - destruct (existsb _ l); cbn [lift]; rewrite bind_mret_l;
      [left; by eexists | by right].
  - by destruct (Hdoc d).
Qed.

Lemma build_params_not_dict fs m (params : pydict) path doc :
  given (arg_preset_document m) = Some path ->
  isfile fs path = true ->
  json_load fs path = inr doc ->
  (forall d, doc ≠ PyDict d) ->
  params !! "Video" = None ->
  exists e, build_params fs m params = ([], Raise e).
Proof.
  intros Hdoc Hfile Hload Hnd Hp. unfold build_params, load_preset_document.
  rewrite Hdoc, Hfile, Hload. cbn [negb]. rewrite !bind_mret_l.
  destruct (copy_section_not_dict "Video" doc params Hnd) as [[e ->] | ->];
    [by exists e |].
  rewrite bind_ret_l.
  destruct (copy_section_not_dict "Audio" doc params Hnd) as [[e ->] | ->];
    [by exists e |].
  rewrite bind_ret_l.
  destruct (copy_section_not_dict "Thumbnails" doc params Hnd) as [[e ->] | ->];
    [by exists e |].
  rewrite bind_ret_l, no_specs_eval. unfold specs_check. rewrite Hp.
  by exists (KeyError "Video").
Qed.

(** X15: a preset_document whose content is well-formed JSON but not an
    object (null, a number, a boolean, a string or an array) never gets a
    preset created: a state=present invocation that reaches the validation
    with it ends with an uncaught exception and makes no create call. *)
Theorem present_document_not_an_object c fs m n id arn container path doc :
  arg_state m = present ->
  given (arg_name m) = Some n ->
  given (arg_container m) = Some container ->
  result_of (get_preset_id c n) = Return (id, arn) ->
  py_truthy id && negb (arg_recreate m) = false ->
  (py_truthy id && arg_recreate m = true -> api_delete_preset c id = None) ->
  given (arg_preset_document m) = Some path ->
  isfile fs path = true ->
  json_load fs path = inr doc ->
  (forall d, doc ≠ PyDict d) ->
  exists e,
    main c fs m =
      ((trace (get_preset_id c n) ++
        (if py_truthy id && arg_recreate m then [DeletePreset id] else []))%list,
       Raise e).
Proof.
  intros Hst Hn Hcont Hlk Hearly Hdel Hdoc Hfile Hload Hnd.
  destruct (build_params_not_dict fs m (base_params m n container) path doc
              Hdoc Hfile Hload Hnd) as [e Hbuild].
  { apply base_params_no_section. auto. }
  exists e.
  by rewrite (main_run c fs m _ _ Hst
                (create_preset_run_built c fs m n id arn container _
                   Hn Hlk Hearly Hdel Hcont Hbuild)).
Qed.

(** ** What a reconciler can return *)

(** X16: a result create_preset returns either carries "Preset already
    exists" and no changed entry, or "Preset created successfully" and
    changed 'true'; a result delete_preset returns either carries "Preset
    deleted successfully" and changed 'true', or, outside check mode only,
    "Preset not found" and changed 'false'. *)
Theorem returned_message_and_changed c fs m r :
  (result_of (create_preset c fs m) = Return r ->
   (r !! "msg" = Some (PyStr "Preset already exists") ∧ r !! "changed" = None) ∨
   (r !! "msg" = Some (PyStr "Preset created successfully") ∧
    r !! "changed" = Some (PyStr "true"))) ∧
  (result_of (delete_preset c m) = Return r ->
   (r !! "msg" = Some (PyStr "Preset deleted successfully") ∧
    r !! "changed" = Some (PyStr "true")) ∨
   (r !! "msg" = Some (PyStr "Preset not found") ∧
    r !! "changed" = Some (PyStr "false") ∧ check_mode m = false)).
Proof.
  split.
  - unfold create_preset.
    destruct (given (arg_name m)) as [n |]; [| done].
    rewrite result_bind.
    destruct (result_of (get_preset_id c n)) as [[id arn] | |]; [| done..].
    destruct (py_truthy id && negb (arg_recreate m)).
    + intros [= <-]. left. split; by simplify_map_eq.
    + rewrite result_bind.
      destruct (result_of (if py_truthy id && arg_recreate m then _ else _));
        [| done..].
      destruct (given (arg_container m)) as [container |]; [| done].
      rewrite result_bind.
      destruct (result_of (build_params _ _ _)) as [params | |]; [| done..].
      rewrite result_bind.
      destruct (result_of (call_create _ _ _ _)) as [r0 | |]; [| done..].
      intros [= <-]. right. split; by simplify_map_eq.
  - unfold delete_preset.
    destruct (given (arg_name m)) as [n |]; [| done].
    rewrite result_bind.
    destruct (result_of (get_preset_id c n)) as [[id arn] | |]; [| done..].
    rewrite result_bind.
    destruct (py_truthy id), (check_mode m); cbn [negb].
    + intros [= <-]. left. split; by simplify_map_eq.
    + rewrite result_bind. cbn [emit result_of snd].
      destruct (api_delete_preset c id) as [[] |]; try done.
      intros [= <-]. left. split; by simplify_map_eq.
    + intros [= <-]. left. split; by simplify_map_eq.
    + intros [= <-]. right. split_and!; [by simplify_map_eq.. | done].
Qed.

(** * The further properties at sample invocations *)

(** After the first page without a token come an error and a page holding
    the name; neither is reached. *)
Lemma get_preset_id_ignores_pages_after_last_witness :
  get_preset_id
    (service_with [inr (last_page [other_preset]);
                   inl (ClientError "ThrottlingException");
                   inr (last_page [sd_300])]
                  (inr created_preset) None)
    "test_300_sd_video" =
  get_preset_id (service [last_page [other_preset]]) "test_300_sd_video".
Proof.
  apply (get_preset_id_ignores_pages_after_last _ _ [] (last_page [other_preset])
           [inl (ClientError "ThrottlingException"); inr (last_page [sd_300])]);
    reflexivity.
Defined.

(** The second fetch of the listing is refused. *)
Lemma listing_failure_ends_the_invocation_witness :
  main (service_with throttled_stream (inr created_preset) None) preset_files
       (invoke_present (Some "test_300_sd_video") (Some "mp4") (Some "video.json")
                       true false) =
    ([ListPresets; ListPresets], Raise (ClientError "ThrottlingException")) ∧
  mutating (trace (main (service_with throttled_stream (inr created_preset) None)
                        preset_files
                        (invoke_present (Some "test_300_sd_video") (Some "mp4")
                                        (Some "video.json") true false))) = [].
Proof.
  exact (listing_failure_ends_the_invocation
           (service_with throttled_stream (inr created_preset) None) preset_files
           (invoke_present (Some "test_300_sd_video") (Some "mp4") (Some "video.json")
                           true false)
           "test_300_sd_video" (ClientError "ThrottlingException") eq_refl eq_refl).
Defined.

(** Absent against a catalog that holds the preset. *)
Lemma absent_deletes_located_preset_witness :
  trace (main (service [last_page [other_preset; sd_300]]) no_files
              (invoke_absent (Some "test_300_sd_video") false)) =
    [ListPresets; DeletePreset (PyStr "1466672939342-kdjcje")] ∧
  exists r,
    result_of (main (service [last_page [other_preset; sd_300]]) no_files
                    (invoke_absent (Some "test_300_sd_video") false)) = Return r ∧
    r !! "id" = Some (PyStr "1466672939342-kdjcje") ∧
    r !! "changed" = Some (PyStr "true").
Proof.
  destruct (absent_deletes_located_preset
              (service [last_page [other_preset; sd_300]]) no_files
              (invoke_absent (Some "test_300_sd_video") false)
              "test_300_sd_video" (PyStr (Id sd_300)) (PyStr (Arn sd_300))
              eq_refl eq_refl eq_refl eq_refl eq_refl eq_refl)
    as (Htr & r & Hr & _ & Hid & _ & _ & Hch).
  split; [exact Htr |]. exists r. repeat split; assumption.
Defined.

(** The service refuses the delete. *)
Lemma absent_delete_failure_witness :
  main (service_with [inr (last_page [sd_300])] (inr created_preset)
                     (Some (ClientError "AccessDeniedException")))
       no_files (invoke_absent (Some "test_300_sd_video") false) =
  ([ListPresets; DeletePreset (PyStr "1466672939342-kdjcje")],
   FailJson "Failed to delete preset test_300_sd_video: AccessDeniedException").
Proof.
  exact (absent_delete_failure
           (service_with [inr (last_page [sd_300])] (inr created_preset)
                         (Some (ClientError "AccessDeniedException")))
           no_files (invoke_absent (Some "test_300_sd_video") false)
           "test_300_sd_video" (PyStr (Id sd_300)) (PyStr (Arn sd_300))
           (ClientError "AccessDeniedException")
           eq_refl eq_refl eq_refl eq_refl eq_refl eq_refl).
Defined.

(** An empty name, in both states. *)
Lemma missing_name_fails_before_any_call_witness :
  main (service [last_page [sd_300]]) preset_files
       (invoke_present (Some "") (Some "mp4") (Some "video.json") false false) =
    ([], FailJson "Missing required argument: name") ∧
  main (service [last_page [sd_300]]) no_files (invoke_absent None false) =
    ([], FailJson "Missing required argument: name").
Proof.
  split.
  - apply missing_name_fails_before_any_call. right. reflexivity.
  - apply missing_name_fails_before_any_call. left. reflexivity.
Defined.

(** The same absent invocation, dressed with a container, a description,
    the recreate flag and a document. *)
Lemma absent_uses_name_and_check_mode_only_witness :
  main (service [last_page [sd_300]]) no_files
       (invoke_absent (Some "test_300_sd_video") false) =
  main (service [last_page [sd_300]]) preset_files
       {| arg_name := Some "test_300_sd_video";
          arg_description := Some "Preset test";
          arg_container := Some "mp4";
          arg_state := absent;
          arg_recreate := true;
          arg_preset_document := Some "missing.json";
          check_mode := false |}.
Proof.
  apply (absent_uses_name_and_check_mode_only (service [last_page [sd_300]])
           no_files preset_files (invoke_absent (Some "test_300_sd_video") false));
    reflexivity.
Defined.

(** A document with an empty Video section, an Audio section and no
    Thumbnails section: the create call carries the two sections it has. *)
Lemma present_creates_preset_witness :
  exists params,
    main (service [last_page [other_preset]]) more_preset_files
         (invoke_present (Some "test_300_sd_video") (Some "mp3")
                         (Some "audio_after_video.json") false false) =
      ([ListPresets; CreatePreset params], Return (created_result created_preset)) ∧
    params !! "Description" = Some (PyStr "Preset test") ∧
    params !! "Audio" = Some audio_section ∧
    params !! "Thumbnails" = None.
Proof.
  destruct (present_creates_preset (service [last_page [other_preset]]) more_preset_files
              (invoke_present (Some "test_300_sd_video") (Some "mp3")
                              (Some "audio_after_video.json") false false)
              "test_300_sd_video" PyNone PyNone "mp3" "audio_after_video.json"
              (<["Video" := PyDict ∅]> (<["Audio" := audio_section]> ∅))
              created_preset
              eq_refl eq_refl eq_refl eq_refl eq_refl eq_refl ltac:(discriminate)
              eq_refl eq_refl eq_refl eq_refl eq_refl)
    as (params & Hmain & _ & _ & Hdesc & _ & Haudio & Hthumbs & _).
  exists params. split_and!; assumption.
Defined.

(** A document without Video section, and one with an empty Video section
    and nothing else. *)
Lemma present_missing_section_key_error_witness :
  main (service [last_page [other_preset]]) preset_files
       (invoke_present (Some "test_300_sd_video") (Some "mp3") (Some "audio.json")
                       false false) =
    ([ListPresets], Raise (KeyError "Video")) ∧
  main (service [last_page [other_preset]]) more_preset_files
       (invoke_present (Some "test_300_sd_video") (Some "mp4") (Some "empty_video.json")
                       false false) =
    ([ListPresets], Raise (KeyError "Audio")).
Proof.
  split.
  - apply (present_missing_section_key_error (service [last_page [other_preset]])
             preset_files
             (invoke_present (Some "test_300_sd_video") (Some "mp3") (Some "audio.json")
                             false false)
             "test_300_sd_video" PyNone PyNone "mp3" "audio.json"
             (<["Audio" := audio_section]> ∅)
             eq_refl eq_refl eq_refl eq_refl eq_refl ltac:(discriminate)
             eq_refl eq_refl eq_refl).
    reflexivity.
  - apply (present_missing_section_key_error (service [last_page [other_preset]])
             more_preset_files
             (invoke_present (Some "test_300_sd_video") (Some "mp4")
                             (Some "empty_video.json") false false)
             "test_300_sd_video" PyNone PyNone "mp4" "empty_video.json"
             (<["Video" := PyDict ∅]> ∅)
             eq_refl eq_refl eq_refl eq_refl eq_refl ltac:(discriminate)
             eq_refl eq_refl eq_refl);
      reflexivity.
Defined.

(** A document whose Video section is null. *)
Lemma present_section_without_length_witness :
  main (service [last_page [other_preset]]) more_preset_files
       (invoke_present (Some "test_300_sd_video") (Some "mp4") (Some "null_video.json")
                       false false) =
    ([ListPresets], Raise (TypeError "object has no len()")).
Proof.
  apply (present_section_without_length (service [last_page [other_preset]])
           more_preset_files
           (invoke_present (Some "test_300_sd_video") (Some "mp4")
                           (Some "null_video.json") false false)
           "test_300_sd_video" PyNone PyNone "mp4" "null_video.json"
           (<["Video" := PyNone]> ∅) PyNone (TypeError "object has no len()")
           eq_refl eq_refl eq_refl eq_refl eq_refl ltac:(discriminate)
           eq_refl eq_refl eq_refl eq_refl).
  left. reflexivity.
Defined.

(** Recreate against the existing preset; the service refuses the create
    call after the delete. *)
Lemma present_create_failure_witness :
  exists params,
    main (service_with [inr (last_page [sd_300])]
                       (inl (ClientError "ValidationException")) None)
         preset_files
         (invoke_present (Some "test_300_sd_video") (Some "mp4") (Some "video.json")
                         true false) =
    ([ListPresets; DeletePreset (PyStr "1466672939342-kdjcje"); CreatePreset params],
     FailJson "Invalid preset settings: ValidationException").
Proof.
  eexists.
  exact (present_create_failure
           (service_with [inr (last_page [sd_300])]
                         (inl (ClientError "ValidationException")) None)
           preset_files
           (invoke_present (Some "test_300_sd_video") (Some "mp4") (Some "video.json")
                           true false)
           "test_300_sd_video" (PyStr (Id sd_300)) (PyStr (Arn sd_300)) "mp4" "video.json"
           (<["Video" := video_section]> (<["Audio" := PyDict ∅]>
              (<["Thumbnails" := PyDict ∅]> ∅)))
           (ClientError "ValidationException")
           eq_refl eq_refl eq_refl eq_refl eq_refl eq_refl (fun _ => eq_refl)
           eq_refl eq_refl eq_refl eq_refl eq_refl).
Defined.

(** Check mode, no preset of the name in the catalog. *)
Lemma present_check_mode_reports_created_witness :
  creates (trace (main (service [last_page [other_preset]]) preset_files
    (invoke_present (Some "test_300_sd_video") (Some "mp4") (Some "video.json")
                    false true))) = [] ∧
  exists r,
    result_of (main (service [last_page [other_preset]]) preset_files
      (invoke_present (Some "test_300_sd_video") (Some "mp4") (Some "video.json")
                      false true)) = Return r ∧
    r !! "changed" = Some (PyStr "true") ∧
    r !! "id" = Some (PyStr "").
Proof.
  destruct (present_check_mode_reports_created (service [last_page [other_preset]])
              preset_files
              (invoke_present (Some "test_300_sd_video") (Some "mp4") (Some "video.json")
                              false true)
              "test_300_sd_video" PyNone PyNone "mp4" "video.json"
              (<["Video" := video_section]> (<["Audio" := PyDict ∅]>
                 (<["Thumbnails" := PyDict ∅]> ∅)))
              eq_refl eq_refl eq_refl eq_refl eq_refl eq_refl ltac:(discriminate)
              eq_refl eq_refl eq_refl eq_refl)
    as (Hcreates & r & Hr & _ & Hch & _ & Hid & _).
  split; [exact Hcreates |]. exists r. repeat split; assumption.
Defined.

(** Check mode, recreate, and the preset in the catalog. *)
Lemma present_check_mode_recreate_deletes_witness :
  mutating (trace (main (service [last_page [sd_300]]) preset_files
    (invoke_present (Some "test_300_sd_video") (Some "mp4") (Some "video.json")
                    true true))) =
  [DeletePreset (PyStr "1466672939342-kdjcje")].
Proof.
  exact (present_check_mode_recreate_deletes (service [last_page [sd_300]]) preset_files
           (invoke_present (Some "test_300_sd_video") (Some "mp4") (Some "video.json")
                           true true)
           "test_300_sd_video" (PyStr (Id sd_300)) (PyStr (Arn sd_300))
           eq_refl eq_refl eq_refl eq_refl eq_refl eq_refl).
Defined.

(** Recreate; the service refuses the delete. *)
Lemma present_recreate_delete_failure_witness :
  main (service_with [inr (last_page [sd_300])] (inr created_preset)
                     (Some (ClientError "AccessDeniedException")))
       preset_files
       (invoke_present (Some "test_300_sd_video") (Some "mp4") (Some "video.json")
                       true false) =
  ([ListPresets; DeletePreset (PyStr "1466672939342-kdjcje")],
   Raise (NameError "module")).
Proof.
  exact (present_recreate_delete_failure
           (service_with [inr (last_page [sd_300])] (inr created_preset)
                         (Some (ClientError "AccessDeniedException")))
           preset_files
           (invoke_present (Some "test_300_sd_video") (Some "mp4") (Some "video.json")
                           true false)
           "test_300_sd_video" (PyStr (Id sd_300)) (PyStr (Arn sd_300))
           (ClientError "AccessDeniedException")
           eq_refl eq_refl eq_refl eq_refl eq_refl eq_refl).
Defined.

(** A document that is an array of section names. *)
Lemma present_document_not_an_object_witness :
  exists e,
    main (service [last_page [other_preset]]) more_preset_files
         (invoke_present (Some "test_300_sd_video") (Some "mp4") (Some "list.json")
                         false false) =
    ([ListPresets], Raise e).
Proof.
  apply (present_document_not_an_object (service [last_page [other_preset]])
           more_preset_files
           (invoke_present (Some "test_300_sd_video") (Some "mp4") (Some "list.json")
                           false false)
           "test_300_sd_video" PyNone PyNone "mp4" "list.json" list_document
           eq_refl eq_refl eq_refl eq_refl eq_refl ltac:(discriminate)
           eq_refl eq_refl eq_refl).
  intros d. discriminate.
Defined.

(** The early return of create_preset and the not-found return of
    delete_preset. *)
Lemma returned_message_and_changed_witness :
  (already_exists_result "test_300_sd_video" (PyStr (Id sd_300)) (PyStr (Arn sd_300))
     !! "changed" = None) ∧
  (not_found_result "ghost" !! "changed" = Some (PyStr "false")).
Proof.
  split.
  - destruct (proj1 (returned_message_and_changed (service [last_page [sd_300]])
                       preset_files
                       (invoke_present (Some "test_300_sd_video") (Some "mp4")
                                       (Some "video.json") false false)
                       (already_exists_result "test_300_sd_video"
                          (PyStr (Id sd_300)) (PyStr (Arn sd_300))))
                eq_refl) as [[_ H] | [_ H]].
    + exact H.
    + discriminate H.
  - destruct (proj2 (returned_message_and_changed (service [last_page [sd_300]])
                       no_files (invoke_absent (Some "ghost") false)
                       (not_found_result "ghost"))
                eq_refl) as [[_ H] | [_ [H _]]].
    + discriminate H.
    + exact H.
Defined.

(** * The claims on two applications and on recreate without a match *)

(** ** Absent applied twice *)









(** ** Recreate without a match *)

(** C10: a state=present invocation with recreate=true, when no preset of
    the given name exists, issues no delete call and goes straight on to the
    create path: the run of create_preset is the lookup followed by lines
    199-245, so with a container and parameters that pass the validation it
    makes the create call right after the listing outside check mode, and
    without a container it fails on the container check.  The whole run
    (calls and outcome) is the one of the same invocation with
    recreate=false. *)
Theorem recreate_without_match_is_plain_create c fs m n pages :
  arg_state m = present ->
  given (arg_name m) = Some n ->
  api_list_presets c operation_parameters = map inr pages ->
  Forall (fun q => Name q ≠ n) (all_entries pages) ->
  deletes (trace (main c fs (with_recreate true m))) = [] ∧
  create_preset c fs (with_recreate true m) =
    (get_preset_id c n ≫= fun _ => create_path c fs m n) ∧
  (forall container params,
     given (arg_container m) = Some container ->
     result_of (build_params fs m (base_params m n container)) = Return params ->
     check_mode m = false ->
     trace (main c fs (with_recreate true m)) =
       (trace (get_preset_id c n) ++ [CreatePreset params])%list) ∧
  (given (arg_container m) = None ->
   main c fs (with_recreate true m) =
     (trace (get_preset_id c n), FailJson "Missing required argument: container")) ∧
  (exists cs,
     trace (main c fs (with_recreate true m)) = (trace (get_preset_id c n) ++ cs)%list ∧
     (cs = [] ∨ exists p, cs = [CreatePreset p])) ∧
  main c fs (with_recreate true m) = main c fs (with_recreate false m).
Proof.
  intros Hst Hn Hc Hno.
  pose proof (get_preset_id_no_match c n pages Hc Hno) as Hlk.
  destruct (create_preset_trace c fs (with_recreate true m) n _ _ Hn Hlk)
    as (cs & Htr & Hcs & _).
  cbn [py_truthy andb] in Htr. cbn [app] in Htr.
  assert (create_preset c fs (with_recreate true m) =
          (get_preset_id c n ≫= fun _ => create_path c fs m n)) as Hpath.
  { unfold create_preset. cbn [with_recreate arg_name arg_recreate]. rewrite Hn.
    apply (bind_ext _ _ _ _ Hlk). cbn [py_truthy andb]. by rewrite bind_mret_l. }
  assert (trace (main c fs (with_recreate true m)) =
          trace (create_preset c fs (with_recreate true m))) as Hmain.
  { rewrite main_trace. cbn [with_recreate arg_state]. by rewrite Hst. }
  split_and!.
  - rewrite Hmain, Htr, deletes_app.
    rewrite (deletes_mutating _ (get_preset_id_not_mutating c n)).
    by destruct Hcs as [-> | (p & -> & _)].
  - exact Hpath.
  - intros container params Hcont Hbuild Hcm.
    rewrite Hmain, Hpath, trace_bind, Hlk. f_equal.
    unfold create_path. rewrite Hcont, trace_bind, build_params_trace, Hbuild.
    rewrite trace_bind, call_create_trace, Hcm. cbn [app].
    destruct (result_of (call_create c m params initial_result)); by rewrite ?app_nil_r.
  - intros Hcont.
    rewrite (main_run c (fs) (with_recreate true m)
               (trace (get_preset_id c n))
               (FailJson "Missing required argument: container"));
      [done | by cbn [with_recreate arg_state] |].
    rewrite Hpath, (run_eta (_ ≫= _)), trace_bind, result_bind, Hlk.
    unfold create_path. rewrite Hcont. cbn. by rewrite app_nil_r.
  - exists cs. rewrite Hmain. split; [done |].
    destruct Hcs as [-> | (p & -> & _)]; eauto.
  - unfold main. cbn [with_recreate arg_state]. rewrite Hst. f_equal.
    unfold create_preset. cbn [with_recreate arg_name arg_recreate]. rewrite Hn.
    by apply (bind_ext _ _ _ _ Hlk).
Qed.

(** No preset is named "ghost": with recreate=true the run is the listing
    and the create call. *)
Lemma recreate_without_match_is_plain_create_witness :
  deletes (trace (main (service two_pages) preset_files
    (with_recreate true
       (invoke_present (Some "ghost") (Some "mp4") (Some "video.json") false false))))
  = [] ∧
  (exists params,
     trace (main (service two_pages) preset_files
       (with_recreate true
          (invoke_present (Some "ghost") (Some "mp4") (Some "video.json") false false)))
     = [ListPresets; ListPresets; CreatePreset params]) ∧
  main (service two_pages) preset_files
    (with_recreate true
       (invoke_present (Some "ghost") (Some "mp4") (Some "video.json") false false)) =
  main (service two_pages) preset_files
    (with_recreate false
       (invoke_present (Some "ghost") (Some "mp4") (Some "video.json") false false)).
Proof.
  destruct (recreate_without_match_is_plain_create (service two_pages) preset_files
              (invoke_present (Some "ghost") (Some "mp4") (Some "video.json") false false)
              "ghost" two_pages eq_refl eq_refl eq_refl
              ltac:(repeat constructor; discriminate))
    as (Hdel & _ & Hcreate & _ & _ & Heq).
  split_and!; [exact Hdel | | exact Heq].
  exists (with_sections
            (<["Video" := video_section]> (<["Audio" := PyDict ∅]>
               (<["Thumbnails" := PyDict ∅]> ∅)))
            (base_params
               (invoke_present (Some "ghost") (Some "mp4") (Some "video.json")
                               false false)
               "ghost" "mp4")).
  apply (Hcreate "mp4"); [reflexivity | vm_compute; exact eq_refl | reflexivity].
Defined.
